(** * products-api: the Lambda handlers of the products table

    A shallow embedding of the three revisions of [handlers.ts] found in the
    repository (the two-handler file [src/handlers.ts], the five-handler file
    without validation, and the five-handler file with the yup schema), over
    a model of what they call: JSON values, [JSON.stringify], object spread,
    the DynamoDB DocumentClient on one table, [uuid.v4] and the yup schema. *)

From Stdlib Require Import ZArith Ascii String List.
From stdpp Require Import base option gmap strings list pretty.

Local Open Scope string_scope.
Local Open Scope Z_scope.
Set Warnings "-register-all".

(** ** JavaScript values that JSON can carry *)

(** JavaScript numbers are IEEE doubles.  The handlers never compute with
    them; they are carried, printed and tested, so the carrier and the four
    built-in conversions that touch it are an interface.  [None] stands for
    [NaN] in the results of the two conversions from strings. *)
Class JsNumber := {
  number : Type;
  (** [Number.prototype.toString], also what [JSON.stringify] prints. *)
  Number_toString : number -> string;
  (** [n === 0] (either zero): the only falsy finite number. *)
  Number_isZero : number -> bool;
  (** unary [+] applied to a string. *)
  Number_ofString : string -> option number;
  (** the global [parseFloat] applied to a string. *)
  parseFloat : string -> option number
}.

Section Json.
Context `{JsNumber}.

(** A value produced by [JSON.parse].  An object lists its own properties in
    [Object.keys] order; the first binding of a key is the property. *)
Inductive json : Type :=
  | JNull
  | JBool (b : bool)
  | JNum (n : number)
  | JStr (s : string)
  | JArr (items : list json)
  | JObj (props : list (string * json)).

Definition obj : Type := list (string * json).

(** [o[k]] on own properties. *)
Fixpoint obj_get (k : string) (o : obj) : option json :=
  match o with
  | [] => None
  | (k', v) :: o' => if String.eqb k k' then Some v else obj_get k o'
  end.

(** The properties of [o] but [k]: what is left of an object for
    [JSON.stringify] and for the DocumentClient when [o[k]] is [undefined]. *)
Definition obj_drop (k : string) (o : obj) : obj :=
  filter (fun kv => negb (String.eqb k (fst kv))) o.

(** [o[k] = v]: an existing property keeps its place, a new one goes last. *)
Fixpoint obj_set (k : string) (v : json) (o : obj) : obj :=
  match o with
  | [] => [(k, v)]
  | (k', v') :: o' =>
      if String.eqb k k' then (k, v) :: o' else (k', v') :: obj_set k v o'
  end.

(** The characters of a string as one-character strings. *)
Fixpoint chars (s : string) : list string :=
  match s with
  | EmptyString => []
  | String c s' => String c EmptyString :: chars s'
  end.

(** Index keys ["0"], ["1"], ... of an array or a string. *)
Definition indexed {A} (f : A -> json) (l : list A) : obj :=
  imap (fun i x => (pretty (N.of_nat i), f x)) l.

(** [{...v}]: the own enumerable properties of [v].  An object gives its
    properties, an array and a string their indexed elements, [null], a
    boolean and a number nothing. *)
Definition spread (v : json) : obj :=
  match v with
  | JObj o => o
  | JArr l => indexed id l
  | JStr s => indexed JStr (chars s)
  | JNull | JBool _ | JNum _ => []
  end.

(** ** JSON.stringify *)

Definition dquote : ascii := "034"%char.
Definition backslash : ascii := "092"%char.

Definition hex_digit (n : N) : ascii :=
  match n with
  | 0 => "0" | 1 => "1" | 2 => "2" | 3 => "3" | 4 => "4" | 5 => "5"
  | 6 => "6" | 7 => "7" | 8 => "8" | 9 => "9" | 10 => "a" | 11 => "b"
  | 12 => "c" | 13 => "d" | 14 => "e" | _ => "f"
  end%N%char.

(** One code unit inside a JSON string literal (QuoteJSONString). *)
Definition quote_char (c : ascii) : string :=
  let n := N_of_ascii c in
  if (n =? 34)%N then String backslash (String dquote EmptyString)
  else if (n =? 92)%N then String backslash (String backslash EmptyString)
  else if (n =? 8)%N then String backslash "b"
  else if (n =? 12)%N then String backslash "f"
  else if (n =? 10)%N then String backslash "n"
  else if (n =? 13)%N then String backslash "r"
  else if (n =? 9)%N then String backslash "t"
  else if (n <? 32)%N then
    String backslash ("u00" ++ String (hex_digit (n / 16)) (String (hex_digit (n mod 16)) EmptyString))
  else String c EmptyString.

Fixpoint quote_body (s : string) : string :=
  match s with
  | EmptyString => EmptyString
  | String c s' => quote_char c ++ quote_body s'
  end.

Definition quote (s : string) : string :=
  String dquote (quote_body s ++ String dquote EmptyString).

Definition bool_text (b : bool) : string := if b then "true" else "false".

(** [JSON.stringify(v)] with no replacer and no indentation. *)
Fixpoint JSON_stringify (v : json) : string :=
  match v with
  | JNull => "null"
  | JBool b => bool_text b
  | JNum n => Number_toString n
  | JStr s => quote s
  | JArr l => "[" ++ String.concat "," (map JSON_stringify l) ++ "]"
  | JObj o =>
      "{" ++ String.concat ","
               (map (fun kv => match kv with
                               | (k, x) => quote k ++ ":" ++ JSON_stringify x
                               end) o) ++ "}"
  end.

End Json.

(** ** The platform the handlers run on *)

(** What [JSON.parse] made of a text: the message of the [SyntaxError] it
    threw, or the value it returned. *)
Class Runtime `{JsNumber} := {
  JSON_parse : string -> string + json;
  (** The end of yup's [notType] message, which prints the final value ([None]
      is [NaN]) and the original one. *)
  notType_tail : option json -> json -> string
}.

Module Event.
(** The two fields of an [APIGatewayProxyEvent] the handlers read. *)
Record t := {
  body : option string;
  pathParameters : option (gmap string string)
}.
End Event.

Module Result.
(** [APIGatewayProxyResult]. *)
Record t := {
  statusCode : Z;
  headers : option (list (string * string));
  body : string
}.
End Result.

(** What a handler can throw. *)
Inductive exn : Type :=
  | ValidationError (errors : list string)
  | SyntaxError (message : string)
  | HttpError (statusCody : Z) (message : string)
  | TypeError
  | StoreError.

Section World.
Context `{Runtime}.

(** The table, keyed by [productId], and the random source of [uuid]: the
    n-th call of [rng()] returns sixteen bytes, packed here in one integer
    (byte 0 first). *)
Record World := {
  table : gmap string obj;
  rng : nat -> Z;
  drawn : nat
}.

Definition set_table (f : gmap string obj -> gmap string obj) (w : World) : World :=
  {| table := f (table w); rng := rng w; drawn := drawn w |}.

(** An [async] computation: it reads and writes the world, and either
    rejects with an exception or resolves with a value. *)
Definition M (A : Type) : Type := World -> (exn + A) * World.

Definition ret {A} (x : A) : M A := fun w => (inr x, w).
Definition throw {A} (e : exn) : M A := fun w => (inl e, w).
Definition bind {A B} (m : M A) (k : A -> M B) : M B :=
  fun w => match m w with
           | (inl e, w') => (inl e, w')
           | (inr x, w') => k x w'
           end.
Definition try_catch {A} (m : M A) (handler : exn -> M A) : M A :=
  fun w => match m w with
           | (inl e, w') => handler e w'
           | (inr x, w') => (inr x, w')
           end.

End World.

Notation "'let!' x ':=' m 'in' k" := (bind m (fun x => k))
  (at level 10, x name, m at level 100, k at level 200).

Section Platform.
Context `{Runtime}.

(** *** JSON.parse on [event.body]

    [JSON.parse] converts its argument to a string first, so a [null] body is
    read as the text [null]. *)
Definition parse_body (b : option string) : M json :=
  match JSON_parse (default "null" b) with
  | inl message => throw (SyntaxError message)
  | inr v => ret v
  end.

(** [event?.pathParameters?.id]: [None] is [undefined]. *)
Definition path_id (event : Event.t) : option string :=
  Event.pathParameters event ≫= (fun ps => ps !! "id").

(** *** uuid.v4 *)

Definition rnd_byte (r : Z) (i : Z) : Z := Z.land (Z.shiftr r (8 * (15 - i))) 255.

(** [rnds[6] = (rnds[6] & 0x0f) | 0x40; rnds[8] = (rnds[8] & 0x3f) | 0x80]. *)
Definition v4_byte (r : Z) (i : Z) : Z :=
  let b := rnd_byte r i in
  if i =? 6 then Z.lor (Z.land b 15) 64
  else if i =? 8 then Z.lor (Z.land b 63) 128
  else b.

Definition byteToHex (b : Z) : string :=
  String (hex_digit (Z.to_N (Z.shiftr b 4)))
    (String (hex_digit (Z.to_N (Z.land b 15))) EmptyString).

Definition uuid_stringify (arr : Z -> Z) : string :=
  byteToHex (arr 0) ++ byteToHex (arr 1) ++ byteToHex (arr 2) ++ byteToHex (arr 3) ++ "-" ++
  byteToHex (arr 4) ++ byteToHex (arr 5) ++ "-" ++
  byteToHex (arr 6) ++ byteToHex (arr 7) ++ "-" ++
  byteToHex (arr 8) ++ byteToHex (arr 9) ++ "-" ++
  byteToHex (arr 10) ++ byteToHex (arr 11) ++ byteToHex (arr 12) ++
  byteToHex (arr 13) ++ byteToHex (arr 14) ++ byteToHex (arr 15).

Definition uuid_of (r : Z) : string := uuid_stringify (v4_byte r).

Definition v4 : M string :=
  fun w => (inr (uuid_of (rng w (drawn w))),
            {| table := table w; rng := rng w; drawn := S (drawn w) |}).

(** *** The DocumentClient on [ProductsTable]

    The table is an ideal key-value map on the string key [productId].  A
    request whose key is [undefined] or not a string is refused by the store. *)
Definition docClient_put (Item : obj) : M unit :=
  match obj_get "productId" Item with
  | Some (JStr k) => fun w => (inr tt, set_table (insert k Item) w)
  | _ => throw StoreError
  end.

Definition docClient_get (productId : option string) : M (option obj) :=
  match productId with
  | Some k => fun w => (inr (table w !! k), w)
  | None => throw StoreError
  end.

Definition docClient_delete (productId : option string) : M unit :=
  match productId with
  | Some k => fun w => (inr tt, set_table (delete k) w)
  | None => throw StoreError
  end.

Definition docClient_scan : M (list obj) :=
  fun w => (inr (snd <$> map_to_list (table w)), w).

Definition headers : option (list (string * string)) :=
  Some [("content-type", "application/json")].

End Platform.

(** ** The yup schema

    yup is a dependency of the handlers, not part of them.  This is its
    behaviour (release line 0.32) on the schema the handlers declare, for
    [validate(value, { abortEarly: false })]: the value is cast first
    (validation is not strict), then every field is tested and every message
    is collected. *)

Inductive ftype := TString | TNumber | TBoolean.

Definition type_name (t : ftype) : string :=
  match t with
  | TString => "string"
  | TNumber => "number"
  | TBoolean => "boolean"
  end.

(** [yup.object().shape({ name, description, price, available })], every
    field [required()]. *)
Definition schema : list (string * ftype) :=
  [("name", TString); ("description", TString);
   ("price", TNumber); ("available", TBoolean)].

Section Yup.
Context `{Runtime}.

(** JavaScript's [String(v)]; [None] is the [TypeError] of an object that
    cannot be converted to a primitive (its own [toString] property, coming
    from JSON, is never a function). *)
Fixpoint js_String (v : json) : option string :=
  match v with
  | JNull => Some "null"
  | JBool b => Some (bool_text b)
  | JNum n => Some (Number_toString n)
  | JStr s => Some s
  | JArr l =>
      String.concat "," <$>
        (fix join (l : list json) : option (list string) :=
           match l with
           | [] => Some []
           | x :: l' =>
               match (match x with JNull => Some "" | _ => js_String x end), join l' with
               | Some s, Some ss => Some (s :: ss)
               | _, _ => None
               end
           end) l
  | JObj o =>
      match obj_get "toString" o with
      | Some _ => None
      | None => Some "[object Object]"
      end
  end.

Definition truthy (v : json) : bool :=
  match v with
  | JNull => false
  | JBool b => b
  | JNum n => negb (Number_isZero n)
  | JStr s => negb (String.eqb s "")
  | JArr _ | JObj _ => true
  end.

(** The result of a field's transform. *)
Inductive cast_result :=
  | CastTo (v : json)
  | CastNaN
  | CastThrows.

Definition of_number (n : option number) : cast_result :=
  match n with
  | Some x => CastTo (JNum x)
  | None => CastNaN
  end.

(** The white space [/\s/] removes, among the code units below 256. *)
Definition is_space (c : ascii) : bool :=
  let n := N_of_ascii c in
  ((9 <=? n) && (n <=? 13) || (n =? 32) || (n =? 160))%N.

Fixpoint strip_spaces (s : string) : string :=
  match s with
  | EmptyString => EmptyString
  | String c s' => if is_space c then strip_spaces s' else String c (strip_spaces s')
  end.

Definition lower_char (c : ascii) : ascii :=
  let n := N_of_ascii c in
  if ((65 <=? n) && (n <=? 90))%N then ascii_of_N (n + 32) else c.

Fixpoint lower (s : string) : string :=
  match s with
  | EmptyString => EmptyString
  | String c s' => String (lower_char c) (lower s')
  end.

(** [yup.string()]: a string, an array and [null] are left alone, any other
    value is replaced by its [toString()], except that a plain object stays
    an object. *)
Definition cast_string (v : json) : cast_result :=
  match v with
  | JStr _ | JArr _ | JNull => CastTo v
  | JBool b => CastTo (JStr (bool_text b))
  | JNum n => CastTo (JStr (Number_toString n))
  | JObj o =>
      match obj_get "toString" o with
      | Some p => if truthy p then CastThrows else CastTo v
      | None => CastTo v
      end
  end.

(** [yup.number()]: a string is read with unary [+] once its white space is
    removed; anything else that is not a number goes through [parseFloat]. *)
Definition cast_number (v : json) : cast_result :=
  match v with
  | JNum _ => CastTo v
  | JStr s =>
      let parsed := strip_spaces s in
      if String.eqb parsed "" then CastNaN else of_number (Number_ofString parsed)
  | JNull | JBool _ => CastNaN
  | JArr _ =>
      match js_String v with
      | Some s => of_number (parseFloat s)
      | None => CastThrows
      end
  | JObj _ =>
      match js_String v with
      | Some _ => CastNaN
      | None => CastThrows
      end
  end.

(** [yup.boolean()]: [/^(true|1)$/i] and [/^(false|0)$/i] on [String(v)]. *)
Definition cast_boolean (v : json) : cast_result :=
  match v with
  | JBool _ => CastTo v
  | _ =>
      match js_String v with
      | None => CastThrows
      | Some s =>
          let t := lower s in
          if String.eqb t "true" || String.eqb t "1" then CastTo (JBool true)
          else if String.eqb t "false" || String.eqb t "0" then CastTo (JBool false)
          else CastTo v
      end
  end.

Definition cast (t : ftype) (v : json) : cast_result :=
  match t with
  | TString => cast_string v
  | TNumber => cast_number v
  | TBoolean => cast_boolean v
  end.

Definition typeCheck (t : ftype) (v : json) : bool :=
  match t, v with
  | TString, JStr _ | TNumber, JNum _ | TBoolean, JBool _ => true
  | _, _ => false
  end.

(** [required()]: the value is not absent, and a string is not empty. *)
Definition isPresent (t : ftype) (v : json) : bool :=
  match t, v with
  | _, JNull => false
  | TString, JStr s => negb (String.eqb s "")
  | _, _ => true
  end.

Definition required_message (path : string) : string :=
  path ++ " is a required field".

Definition notType_message (path : string) (t : string) (final : option json) (original : json) : string :=
  path ++ " must be a `" ++ t ++ "` type, " ++ notType_tail final original.

Inductive verdict :=
  | Accepted
  | Rejected (message : string)
  | Throws.

(** One field of the schema on the property read from the body ([None] is
    [undefined]): the type test comes first, and [required] is tested only
    when it passed. *)
Definition validate_field (path : string) (t : ftype) (value : option json) : verdict :=
  match value with
  | None => Rejected (required_message path)
  | Some v =>
      match cast t v with
      | CastThrows => Throws
      | CastNaN => Rejected (notType_message path (type_name t) None v)
      | CastTo v' =>
          if typeCheck t v' then
            if isPresent t v' then Accepted else Rejected (required_message path)
          else Rejected (notType_message path (type_name t) (Some v') v)
      end
  end.

(** The object schema's own cast: an object is taken as it is, a string is
    parsed as JSON, and what is not an object then becomes [null]. *)
Definition object_cast (v : json) : option obj :=
  match v with
  | JObj o => Some o
  | JStr s =>
      match JSON_parse s with
      | inr (JObj o) => Some o
      | _ => None
      end
  | _ => None
  end.

Definition verdicts (o : obj) : list verdict :=
  map (fun f => validate_field (fst f) (snd f) (obj_get (fst f) o)) schema.

Definition is_throw (r : verdict) : bool :=
  match r with Throws => true | _ => false end.

Fixpoint messages (rs : list verdict) : list string :=
  match rs with
  | [] => []
  | Rejected m :: rs' => m :: messages rs'
  | _ :: rs' => messages rs'
  end.

(** The outcome of [schema.validate(reqBody, { abortEarly: false })]: the
    exception it rejects with, or nothing (the cast body it resolves with is
    not used by the handlers). *)
Definition validate (reqBody : json) : exn + unit :=
  match object_cast reqBody with
  | None => inl (ValidationError [notType_message "this" "object" (Some JNull) reqBody])
  | Some o =>
      let rs := verdicts o in
      if existsb is_throw rs then inl TypeError
      else match messages rs with
           | [] => inr tt
           | errors => inl (ValidationError errors)
           end
  end.

(** [await schema.validate(reqBody, { abortEarly: false })]. *)
Definition schema_validate (reqBody : json) : M unit :=
  fun w => (validate reqBody, w).

End Yup.

(** ** The handlers

    Each handler is an [async] function of the event.  [console.log] in
    [createProduct] writes to the log only and is left out. *)

Definition product_not_found `{JsNumber} : obj := [("error", JStr "Product not found")].

(** [src/handlers.ts]: [createProduct] and [getProduct], no validation, no
    error mapping; [createProduct] calls [v4()] twice. *)
Module HandlersTs.
Section Handlers.
Context `{Runtime}.

Definition createProduct (event : Event.t) : M Result.t :=
  let! reqBody := parse_body (Event.body event) in
  let! id := v4 in
  let product := obj_set "productId" (JStr id) (spread reqBody) in
  let! id' := v4 in
  let! _ := docClient_put (obj_set "productId" (JStr id') (spread reqBody)) in
  ret {| Result.statusCode := 200;
         Result.headers := None;
         Result.body := JSON_stringify (JObj product) |}.

Definition getProduct (event : Event.t) : M Result.t :=
  let id := path_id event in
  let! output := docClient_get id in
  match output with
  | None =>
      ret {| Result.statusCode := 404;
             Result.headers := None;
             Result.body := JSON_stringify (JObj product_not_found) |}
  | Some Item =>
      ret {| Result.statusCode := 200;
             Result.headers := None;
             Result.body := JSON_stringify (JObj Item) |}
  end.

End Handlers.
End HandlersTs.

(** [unnamed/part_001]: the five handlers, [HttpError] and a [handleError]
    that maps [HttpError] only; the body is not validated. *)
Module Part001.
Section Handlers.
Context `{Runtime}.

Definition createProduct (event : Event.t) : M Result.t :=
  let! reqBody := parse_body (Event.body event) in
  let! id := v4 in
  let product := obj_set "productId" (JStr id) (spread reqBody) in
  let! _ := docClient_put product in
  ret {| Result.statusCode := 200;
         Result.headers := headers;
         Result.body := JSON_stringify (JObj product) |}.

(** [new HttpError(statusCody, body)]: the message is the body as JSON. *)
Definition HttpError_new (statusCody : Z) (body : obj) : exn :=
  HttpError statusCody (JSON_stringify (JObj body)).

Definition fetchProductById (id : option string) : M obj :=
  let! output := docClient_get id in
  match output with
  | None => throw (HttpError_new 404 product_not_found)
  | Some Item => ret Item
  end.

Definition handleError (error : exn) : M Result.t :=
  match error with
  | HttpError statusCody message =>
      ret {| Result.statusCode := statusCody;
             Result.headers := headers;
             Result.body := message |}
  | _ => throw error
  end.

Definition getProduct (event : Event.t) : M Result.t :=
  try_catch
    (let! product := fetchProductById (path_id event) in
     ret {| Result.statusCode := 200;
            Result.headers := headers;
            Result.body := JSON_stringify (JObj product) |})
    handleError.

Definition updateProduct (event : Event.t) : M Result.t :=
  try_catch
    (let id := path_id event in
     let! _ := fetchProductById id in
     let! reqBody := parse_body (Event.body event) in
     let product :=
       match id with
       | Some i => obj_set "productId" (JStr i) (spread reqBody)
       | None => obj_drop "productId" (spread reqBody)
       end in
     let! _ := docClient_put product in
     ret {| Result.statusCode := 200;
            Result.headers := headers;
            Result.body := JSON_stringify (JObj product) |})
    handleError.

Definition deleteProduct (event : Event.t) : M Result.t :=
  try_catch
    (let id := path_id event in
     let! _ := fetchProductById id in
     let! _ := docClient_delete id in
     ret {| Result.statusCode := 204;
            Result.headers := None;
            Result.body := "" |})
    handleError.

Definition listProduct (event : Event.t) : M Result.t :=
  let! Items := docClient_scan in
  ret {| Result.statusCode := 200;
         Result.headers := headers;
         Result.body := JSON_stringify (JArr (map JObj Items)) |}.

End Handlers.
End Part001.

(** [unnamed/part_000]: the five handlers with the yup schema, and a
    [handleError] that maps [ValidationError], [SyntaxError] and
    [HttpError]. *)
Module Part000.
Section Handlers.
Context `{Runtime}.

Definition HttpError_new (statusCody : Z) (body : obj) : exn :=
  HttpError statusCody (JSON_stringify (JObj body)).

Definition fetchProductById (id : option string) : M obj :=
  let! output := docClient_get id in
  match output with
  | None => throw (HttpError_new 404 product_not_found)
  | Some Item => ret Item
  end.

Definition handleError (error : exn) : M Result.t :=
  match error with
  | ValidationError errors =>
      ret {| Result.statusCode := 400;
             Result.headers := headers;
             Result.body := JSON_stringify (JObj [("errors", JArr (map JStr errors))]) |}
  | SyntaxError message =>
      ret {| Result.statusCode := 400;
             Result.headers := headers;
             Result.body :=
               JSON_stringify
                 (JObj [("error", JStr ("Invalid request body format: " ++ message))]) |}
  | HttpError statusCody message =>
      ret {| Result.statusCode := statusCody;
             Result.headers := headers;
             Result.body := message |}
  | _ => throw error
  end.

Definition createProduct (event : Event.t) : M Result.t :=
  try_catch
    (let! reqBody := parse_body (Event.body event) in
     let! _ := schema_validate reqBody in
     let! id := v4 in
     let product := obj_set "productId" (JStr id) (spread reqBody) in
     let! _ := docClient_put product in
     ret {| Result.statusCode := 200;
            Result.headers := headers;
            Result.body := JSON_stringify (JObj product) |})
    handleError.

Definition getProduct (event : Event.t) : M Result.t :=
  try_catch
    (let! product := fetchProductById (path_id event) in
     ret {| Result.statusCode := 200;
            Result.headers := headers;
            Result.body := JSON_stringify (JObj product) |})
    handleError.

Definition updateProduct (event : Event.t) : M Result.t :=
  try_catch
    (let id := path_id event in
     let! _ := fetchProductById id in
     let! reqBody := parse_body (Event.body event) in
     let! _ := schema_validate reqBody in
     let product :=
       match id with
       | Some i => obj_set "productId" (JStr i) (spread reqBody)
       | None => obj_drop "productId" (spread reqBody)
       end in
     let! _ := docClient_put product in
     ret {| Result.statusCode := 200;
            Result.headers := headers;
            Result.body := JSON_stringify (JObj product) |})
    handleError.

Definition deleteProduct (event : Event.t) : M Result.t :=
  try_catch
    (let id := path_id event in
     let! _ := fetchProductById id in
     let! _ := docClient_delete id in
     ret {| Result.statusCode := 204;
            Result.headers := None;
            Result.body := "" |})
    handleError.

Definition listProduct (event : Event.t) : M Result.t :=
  let! Items := docClient_scan in
  ret {| Result.statusCode := 200;
         Result.headers := headers;
         Result.body := JSON_stringify (JArr (map JObj Items)) |}.

End Handlers.
End Part000.

(** ** Worlds, events and results the statements speak of *)

Section Shapes.
Context `{Runtime}.

(** The world after [docClient.put] of [Item] under key [k] and [n] calls
    of [v4()]. *)
Definition stored (k : string) (Item : obj) (n : nat) (w : World) : World :=
  {| table := <[k := Item]> (table w); rng := rng w; drawn := (n + drawn w)%nat |}.

(** The id the next call of [v4()] returns. *)
Definition next_id (w : World) : string := uuid_of (rng w (drawn w)).

(** The record both [createProduct] and [updateProduct] build:
    [{ ...reqBody, productId: id }]. *)
Definition with_id (id : string) (reqBody : json) : obj :=
  obj_set "productId" (JStr id) (spread reqBody).

Definition ok (statusCode : Z) (v : json) : Result.t :=
  {| Result.statusCode := statusCode;
     Result.headers := headers;
     Result.body := JSON_stringify v |}.

Definition not_found : Result.t := ok 404 (JObj product_not_found).

(** The second id [createProduct] draws, the one the item is stored under. *)
Definition second_id (w : World) : string := uuid_of (rng w (S (drawn w))).

(** A request with a body and no path parameter. *)
Definition post (text : string) : Event.t :=
  {| Event.body := Some text; Event.pathParameters := None |}.

(** A request on [/product/{id}]. *)
Definition at_id (id : string) (text : option string) : Event.t :=
  {| Event.body := text; Event.pathParameters := Some {[ "id" := id ]} |}.

(** The text {"error":"Product not found"}. *)
Definition not_found_text : string :=
  "{" ++ String dquote "error" ++ String dquote ":" ++
  String dquote "Product not found" ++ String dquote "}".

(** A handler answers [r] and leaves the world as it found it. *)
Definition answers (handler : Event.t -> M Result.t) (event : Event.t) (w : World)
    (statusCode : Z) (body : string) : Prop :=
  exists r, handler event w = (inr r, w)
    /\ Result.statusCode r = statusCode /\ Result.body r = body.

(** [deleteProduct] answers 204 with an empty body, the record of [id] is
    gone and nothing else changed, and [getProduct] on [id] answers 404
    afterwards. *)
Definition deletes (deleteProduct getProduct : Event.t -> M Result.t)
    (event : Event.t) (id : string) (w : World) : Prop :=
  exists r w', deleteProduct event w = (inr r, w')
    /\ Result.statusCode r = 204 /\ Result.body r = ""
    /\ table w' = delete id (table w)
    /\ forall event', path_id event' = Some id ->
         answers getProduct event' w' 404 not_found_text.

(** [updateProduct] answers 200 with the record it stored under [id]: the
    four fields of the body [o] under the path id; [getProduct] on [id]
    answers 200 with that record afterwards. *)
Definition replaces (updateProduct getProduct : Event.t -> M Result.t)
    (event : Event.t) (id : string) (o : obj) (w : World) : Prop :=
  exists Item w', updateProduct event w = (inr (ok 200 (JObj Item)), w')
    /\ table w' = <[id := Item]> (table w)
    /\ obj_get "productId" Item = Some (JStr id)
    /\ (forall path t, In (path, t) schema -> obj_get path Item = obj_get path o)
    /\ forall event', path_id event' = Some id ->
         getProduct event' w' = (inr (ok 200 (JObj Item)), w').


(** [createProduct] answers 200 with the record [{ ...reqBody, productId: id }]. *)
Definition creates_with (createProduct : Event.t -> M Result.t) (event : Event.t)
    (reqBody : json) (id : string) (w : World) : Prop :=
  exists r w', createProduct event w = (inr r, w')
    /\ Result.statusCode r = 200
    /\ Result.body r = JSON_stringify (JObj (with_id id reqBody)).

(** The answer to a body that is not JSON. *)
Definition bad_format (message : string) : Result.t :=
  ok 400 (JObj [("error", JStr ("Invalid request body format: " ++ message))]).

(** The answer to a body that fails validation. *)
Definition bad_fields (errors : list string) : Result.t :=
  ok 400 (JObj [("errors", JArr (map JStr errors))]).

(** The status the validator gives one field of a parsed object. *)
Definition field_verdict (o : obj) (path : string) (t : ftype) : verdict :=
  validate_field path t (obj_get path o).

(** Every record of the table has its key as its [productId]. *)
Definition keyed (w : World) : Prop :=
  forall k Item, table w !! k = Some Item -> obj_get "productId" Item = Some (JStr k).

(** The records [docClient.scan] finds. *)
Definition scanned (w : World) : list obj := snd <$> map_to_list (table w).

(** An answer of [src/handlers.ts], which sets no headers. *)
Definition bare (statusCode : Z) (v : json) : Result.t :=
  {| Result.statusCode := statusCode;
     Result.headers := None;
     Result.body := JSON_stringify v |}.

(** The answer of a successful [deleteProduct]. *)
Definition no_content : Result.t :=
  {| Result.statusCode := 204; Result.headers := None; Result.body := "" |}.

(** A run either returns the world it was given or answers [statusCode]. *)
Definition writes_only_on (statusCode : Z) (run : (exn + Result.t) * World) (w : World) : Prop :=
  snd run = w \/ exists r, fst run = inr r /\ Result.statusCode r = statusCode.

End Shapes.

(** ** A small runtime to run the handlers on

    Numbers are the integers; [JSON.parse] knows the text [null] and the
    texts of the bodies below (each is what [JSON.stringify] prints for it)
    and rejects any other text the way it rejects a text that ends too
    early. *)
Module Sample.

Fixpoint digits (s : string) (acc : Z) : option Z :=
  match s with
  | EmptyString => Some acc
  | String c s' =>
      let n := Z.of_N (N_of_ascii c) in
      if (48 <=? n) && (n <=? 57) then digits s' (10 * acc + (n - 48)) else None
  end.

Definition read_number (s : string) : option Z :=
  match s with
  | EmptyString => None
  | _ => digits s 0
  end.

Definition numbers : JsNumber :=
  {| number := Z;
     Number_toString := pretty;
     Number_isZero := Z.eqb 0;
     Number_ofString := read_number;
     parseFloat := read_number |}.

#[local] Existing Instance numbers.

(** {"name":"Widget","description":"A widget","price":5,"available":true} *)
Definition widget : json :=
  JObj [("name", JStr "Widget"); ("description", JStr "A widget");
        ("price", JNum 5); ("available", JBool true)].

(** The widget with a colour and with the id that [v4()] makes of sixteen
    zero bytes: 00000000-0000-4000-8000-000000000000. *)
Definition widget_with_id : json :=
  JObj [("productId", JStr (uuid_of 0)); ("name", JStr "Widget");
        ("description", JStr "A widget"); ("price", JNum 5);
        ("available", JBool true); ("colour", JStr "red")].

(** {"name":5,"description":true,"price":"12","available":"TRUE"}: no field
    has the type the schema names. *)
Definition coerced : json :=
  JObj [("name", JNum 5); ("description", JBool true);
        ("price", JStr "12"); ("available", JStr "TRUE")].

(** {"name":"Widget","price":null}: two fields missing, one [null]. *)
Definition incomplete : json :=
  JObj [("name", JStr "Widget"); ("price", JNull)].

Definition bodies : list json := [JNull; widget; widget_with_id; coerced; incomplete].

Definition parse (text : string) : string + json :=
  match List.find (fun v => String.eqb (JSON_stringify v) text) bodies with
  | Some v => inr v
  | None => inl "Unexpected end of JSON input"
  end.

Definition runtime : Runtime :=
  {| JSON_parse := parse;
     notType_tail := fun final original =>
       "but the final value was: `" ++
       match final with Some v => JSON_stringify v | None => "NaN" end ++ "`." |}.

#[local] Existing Instance runtime.

(** An empty table; the n-th call of [rng()] returns the bytes of [n]. *)
Definition empty_world : World :=
  {| table := ∅; rng := fun n => Z.of_nat n; drawn := 0 |}.

(** The table holding the widget under the id [p1]. *)
Definition one_record : World :=
  stored "p1" (with_id "p1" widget) 0 empty_world.

End Sample.

(** ** Facts about the model *)

Section Facts.
Context `{Runtime}.

Lemma obj_get_set_eq (k : string) (v : json) (o : obj) :
  obj_get k (obj_set k v o) = Some v.
Proof.
  induction o as [|[k' v'] o IH]; simpl.
  - by rewrite String.eqb_refl.
  - destruct (String.eqb k k') eqn:E; simpl.
    + by rewrite String.eqb_refl.
    + by rewrite E.
Qed.

Lemma obj_get_set_ne (k k' : string) (v : json) (o : obj) :
  k <> k' -> obj_get k' (obj_set k v o) = obj_get k' o.
Proof.
  intros Hne. induction o as [|[k0 v0] o IH]; simpl.
  - destruct (String.eqb k' k) eqn:E; [|done].
    apply String.eqb_eq in E. congruence.
  - destruct (String.eqb k k0) eqn:E; simpl.
    + apply String.eqb_eq in E. subst k0.
      destruct (String.eqb k' k) eqn:E'; [|done].
      apply String.eqb_eq in E'. congruence.
    + by rewrite IH.
Qed.

(** A v4 id is thirty-six characters long, whatever the random bytes. *)
Lemma uuid_of_length (r : Z) : String.length (uuid_of r) = 36%nat.
Proof. reflexivity. Qed.

Lemma uuid_of_nonempty (r : Z) : uuid_of r <> "".
Proof. intros E. apply (f_equal String.length) in E. by rewrite uuid_of_length in E. Qed.

End Facts.

(** ** The handlers step by step *)

Section Runs.
Context `{Runtime}.

Ltac run :=
  repeat first
    [ progress simpl
    | progress unfold try_catch, bind, ret, throw, parse_body, schema_validate,
        docClient_get, docClient_put, docClient_delete, docClient_scan, v4,
        set_table, stored, next_id, with_id, ok, not_found
    | match goal with
      | E : ?x = _ |- context [?x] => rewrite E
      end ].

Lemma put_with_id (id : string) (reqBody : json) (w : World) :
  docClient_put (with_id id reqBody) w
  = (inr tt, {| table := <[id := with_id id reqBody]> (table w);
                rng := rng w; drawn := drawn w |}).
Proof.
  unfold docClient_put, with_id. by rewrite obj_get_set_eq.
Qed.

(** *** [unnamed/part_000] *)

Lemma p0_fetch_found (id : string) (Item : obj) (w : World) :
  table w !! id = Some Item ->
  Part000.fetchProductById (Some id) w = (inr Item, w).
Proof. intros E. unfold Part000.fetchProductById. by run. Qed.

Lemma p0_fetch_missing (id : string) (w : World) :
  table w !! id = None ->
  Part000.fetchProductById (Some id) w
  = (inl (HttpError 404 (JSON_stringify (JObj product_not_found))), w).
Proof. intros E. unfold Part000.fetchProductById. by run. Qed.

Lemma p0_get_found (event : Event.t) (id : string) (Item : obj) (w : World) :
  path_id event = Some id -> table w !! id = Some Item ->
  Part000.getProduct event w = (inr (ok 200 (JObj Item)), w).
Proof.
  intros Eid E. unfold Part000.getProduct, try_catch, bind.
  rewrite Eid, (p0_fetch_found _ _ _ E). done.
Qed.

Lemma p0_get_missing (event : Event.t) (id : string) (w : World) :
  path_id event = Some id -> table w !! id = None ->
  Part000.getProduct event w = (inr not_found, w).
Proof.
  intros Eid E. unfold Part000.getProduct, try_catch, bind.
  rewrite Eid, (p0_fetch_missing _ _ E). done.
Qed.

Lemma p0_create_ok (event : Event.t) (reqBody : json) (w : World) :
  JSON_parse (default "null" (Event.body event)) = inr reqBody ->
  validate reqBody = inr tt ->
  Part000.createProduct event w
  = (inr (ok 200 (JObj (with_id (next_id w) reqBody))),
     stored (next_id w) (with_id (next_id w) reqBody) 1 w).
Proof.
  intros Ep Ev. unfold Part000.createProduct, try_catch, bind at 1.
  unfold parse_body. rewrite Ep. unfold bind at 1, ret at 1.
  unfold bind at 1, schema_validate. rewrite Ev.
  unfold bind at 1, v4. unfold bind.
  fold (next_id w). fold (with_id (next_id w) reqBody).
  rewrite put_with_id. done.
Qed.

Lemma p0_create_syntax (event : Event.t) (message : string) (w : World) :
  JSON_parse (default "null" (Event.body event)) = inl message ->
  Part000.createProduct event w
  = (inr (ok 400 (JObj [("error", JStr ("Invalid request body format: " ++ message))])), w).
Proof.
  intros Ep. unfold Part000.createProduct, try_catch, bind at 1.
  unfold parse_body. by rewrite Ep.
Qed.


Lemma p0_update_missing (event : Event.t) (id : string) (w : World) :
  path_id event = Some id -> table w !! id = None ->
  Part000.updateProduct event w = (inr not_found, w).
Proof.
  intros Eid E. unfold Part000.updateProduct, try_catch, bind at 1.
  rewrite Eid, (p0_fetch_missing _ _ E). done.
Qed.

Lemma p0_update_ok (event : Event.t) (id : string) (old : obj) (reqBody : json) (w : World) :
  path_id event = Some id -> table w !! id = Some old ->
  JSON_parse (default "null" (Event.body event)) = inr reqBody ->
  validate reqBody = inr tt ->
  Part000.updateProduct event w
  = (inr (ok 200 (JObj (with_id id reqBody))), stored id (with_id id reqBody) 0 w).
Proof.
  intros Eid E Ep Ev. unfold Part000.updateProduct, try_catch, bind at 1.
  rewrite Eid, (p0_fetch_found _ _ _ E).
  unfold bind at 1, parse_body. rewrite Ep. unfold ret at 1.
  unfold bind at 1, schema_validate. rewrite Ev.
  unfold bind. fold (with_id id reqBody). rewrite put_with_id. done.
Qed.

Lemma p0_update_syntax (event : Event.t) (id : string) (old : obj) (message : string) (w : World) :
  path_id event = Some id -> table w !! id = Some old ->
  JSON_parse (default "null" (Event.body event)) = inl message ->
  Part000.updateProduct event w
  = (inr (ok 400 (JObj [("error", JStr ("Invalid request body format: " ++ message))])), w).
Proof.
  intros Eid E Ep. unfold Part000.updateProduct, try_catch, bind at 1.
  rewrite Eid, (p0_fetch_found _ _ _ E).
  unfold bind at 1, parse_body. by rewrite Ep.
Qed.

Lemma p0_delete_ok (event : Event.t) (id : string) (old : obj) (w : World) :
  path_id event = Some id -> table w !! id = Some old ->
  Part000.deleteProduct event w
  = (inr {| Result.statusCode := 204; Result.headers := None; Result.body := "" |},
     set_table (delete id) w).
Proof.
  intros Eid E. unfold Part000.deleteProduct, try_catch, bind at 1.
  rewrite Eid, (p0_fetch_found _ _ _ E). done.
Qed.

(** *** [unnamed/part_001] *)

Lemma p1_fetch_found (id : string) (Item : obj) (w : World) :
  table w !! id = Some Item ->
  Part001.fetchProductById (Some id) w = (inr Item, w).
Proof. intros E. unfold Part001.fetchProductById. by run. Qed.

Lemma p1_fetch_missing (id : string) (w : World) :
  table w !! id = None ->
  Part001.fetchProductById (Some id) w
  = (inl (HttpError 404 (JSON_stringify (JObj product_not_found))), w).
Proof. intros E. unfold Part001.fetchProductById. by run. Qed.

Lemma p1_get_found (event : Event.t) (id : string) (Item : obj) (w : World) :
  path_id event = Some id -> table w !! id = Some Item ->
  Part001.getProduct event w = (inr (ok 200 (JObj Item)), w).
Proof.
  intros Eid E. unfold Part001.getProduct, try_catch, bind.
  rewrite Eid, (p1_fetch_found _ _ _ E). done.
Qed.

Lemma p1_get_missing (event : Event.t) (id : string) (w : World) :
  path_id event = Some id -> table w !! id = None ->
  Part001.getProduct event w = (inr not_found, w).
Proof.
  intros Eid E. unfold Part001.getProduct, try_catch, bind.
  rewrite Eid, (p1_fetch_missing _ _ E). done.
Qed.

Lemma p1_create_ok (event : Event.t) (reqBody : json) (w : World) :
  JSON_parse (default "null" (Event.body event)) = inr reqBody ->
  Part001.createProduct event w
  = (inr (ok 200 (JObj (with_id (next_id w) reqBody))),
     stored (next_id w) (with_id (next_id w) reqBody) 1 w).
Proof.
  intros Ep. unfold Part001.createProduct, bind at 1.
  unfold parse_body. rewrite Ep. unfold ret at 1.
  unfold bind at 1, v4. unfold bind.
  fold (next_id w). fold (with_id (next_id w) reqBody).
  rewrite put_with_id. done.
Qed.

Lemma p1_create_syntax (event : Event.t) (message : string) (w : World) :
  JSON_parse (default "null" (Event.body event)) = inl message ->
  Part001.createProduct event w = (inl (SyntaxError message), w).
Proof.
  intros Ep. unfold Part001.createProduct, bind at 1.
  unfold parse_body. by rewrite Ep.
Qed.

Lemma p1_update_missing (event : Event.t) (id : string) (w : World) :
  path_id event = Some id -> table w !! id = None ->
  Part001.updateProduct event w = (inr not_found, w).
Proof.
  intros Eid E. unfold Part001.updateProduct, try_catch, bind at 1.
  rewrite Eid, (p1_fetch_missing _ _ E). done.
Qed.

Lemma p1_update_ok (event : Event.t) (id : string) (old : obj) (reqBody : json) (w : World) :
  path_id event = Some id -> table w !! id = Some old ->
  JSON_parse (default "null" (Event.body event)) = inr reqBody ->
  Part001.updateProduct event w
  = (inr (ok 200 (JObj (with_id id reqBody))), stored id (with_id id reqBody) 0 w).
Proof.
  intros Eid E Ep. unfold Part001.updateProduct, try_catch, bind at 1.
  rewrite Eid, (p1_fetch_found _ _ _ E).
  unfold bind at 1, parse_body. rewrite Ep. unfold ret at 1.
  unfold bind. fold (with_id id reqBody). rewrite put_with_id. done.
Qed.

Lemma p1_update_syntax (event : Event.t) (id : string) (old : obj) (message : string) (w : World) :
  path_id event = Some id -> table w !! id = Some old ->
  JSON_parse (default "null" (Event.body event)) = inl message ->
  Part001.updateProduct event w = (inl (SyntaxError message), w).
Proof.
  intros Eid E Ep. unfold Part001.updateProduct, try_catch, bind at 1.
  rewrite Eid, (p1_fetch_found _ _ _ E).
  unfold bind at 1, parse_body. by rewrite Ep.
Qed.

Lemma p1_delete_ok (event : Event.t) (id : string) (old : obj) (w : World) :
  path_id event = Some id -> table w !! id = Some old ->
  Part001.deleteProduct event w
  = (inr {| Result.statusCode := 204; Result.headers := None; Result.body := "" |},
     set_table (delete id) w).
Proof.
  intros Eid E. unfold Part001.deleteProduct, try_catch, bind at 1.
  rewrite Eid, (p1_fetch_found _ _ _ E). done.
Qed.

(** *** [src/handlers.ts] *)

Lemma ts_create_ok (event : Event.t) (reqBody : json) (w : World) :
  JSON_parse (default "null" (Event.body event)) = inr reqBody ->
  HandlersTs.createProduct event w
  = (inr {| Result.statusCode := 200;
            Result.headers := None;
            Result.body := JSON_stringify (JObj (with_id (next_id w) reqBody)) |},
     stored (second_id w) (with_id (second_id w) reqBody) 2 w).
Proof.
  intros Ep. unfold HandlersTs.createProduct, bind at 1.
  unfold parse_body. rewrite Ep. unfold ret at 1.
  unfold bind at 1, v4. unfold bind at 1. unfold bind. simpl.
  fold (second_id w). fold (with_id (second_id w) reqBody).
  rewrite put_with_id. done.
Qed.

Lemma ts_create_syntax (event : Event.t) (message : string) (w : World) :
  JSON_parse (default "null" (Event.body event)) = inl message ->
  HandlersTs.createProduct event w = (inl (SyntaxError message), w).
Proof.
  intros Ep. unfold HandlersTs.createProduct, bind at 1.
  unfold parse_body. by rewrite Ep.
Qed.

Lemma ts_get_found (event : Event.t) (id : string) (Item : obj) (w : World) :
  path_id event = Some id -> table w !! id = Some Item ->
  HandlersTs.getProduct event w
  = (inr {| Result.statusCode := 200;
            Result.headers := None;
            Result.body := JSON_stringify (JObj Item) |}, w).
Proof. intros Eid E. unfold HandlersTs.getProduct. by run. Qed.

Lemma ts_get_missing (event : Event.t) (id : string) (w : World) :
  path_id event = Some id -> table w !! id = None ->
  HandlersTs.getProduct event w
  = (inr {| Result.statusCode := 404;
            Result.headers := None;
            Result.body := JSON_stringify (JObj product_not_found) |}, w).
Proof. intros Eid E. unfold HandlersTs.getProduct. by run. Qed.

End Runs.

(** ** The claims *)

Section Claims.
Context `{Runtime}.

Lemma not_found_text_eq : JSON_stringify (JObj product_not_found) = not_found_text.
Proof. reflexivity. Qed.

Lemma schema_not_id (path : string) (t : ftype) :
  In (path, t) schema -> "productId" <> path.
Proof.
  unfold schema. simpl. intros [E|[E|[E|[E|[]]]]]; inversion E; done.
Qed.

Lemma with_id_id (id : string) (reqBody : json) :
  obj_get "productId" (with_id id reqBody) = Some (JStr id).
Proof. apply obj_get_set_eq. Qed.

Lemma with_id_other (id k : string) (reqBody : json) :
  k <> "productId" -> obj_get k (with_id id reqBody) = obj_get k (spread reqBody).
Proof. intros Hk. apply obj_get_set_ne. congruence. Qed.

Lemma stored_lookup (k : string) (Item : obj) (n : nat) (w : World) :
  table (stored k Item n w) !! k = Some Item.
Proof. apply lookup_insert_eq. Qed.

(** C7.  For every id with no record in the table, [getProduct] answers 404
    and its body is the text {"error":"Product not found"}, in the three
    revisions of the handler, and the world is left as it was. *)
Theorem get_missing_is_404 (event : Event.t) (id : string) (w : World) :
  path_id event = Some id ->
  table w !! id = None ->
  answers HandlersTs.getProduct event w 404 not_found_text
  /\ answers Part000.getProduct event w 404 not_found_text
  /\ answers Part001.getProduct event w 404 not_found_text.
Proof.
  intros Eid E. repeat split.
  - eexists. rewrite (ts_get_missing _ _ _ Eid E). done.
  - eexists. rewrite (p0_get_missing _ _ _ Eid E). done.
  - eexists. rewrite (p1_get_missing _ _ _ Eid E). done.
Qed.

(** C5.  For every id with no record in the table, [updateProduct] answers
    404 and returns the world it was given: nothing is put, whatever the
    body. *)
Theorem update_missing_is_404 (event : Event.t) (id : string) (w : World) :
  path_id event = Some id ->
  table w !! id = None ->
  answers Part000.updateProduct event w 404 not_found_text
  /\ answers Part001.updateProduct event w 404 not_found_text.
Proof.
  intros Eid E. split.
  - eexists. rewrite (p0_update_missing _ _ _ Eid E). done.
  - eexists. rewrite (p1_update_missing _ _ _ Eid E). done.
Qed.

(** C8.  For every id that has a record, [deleteProduct] answers 204 with an
    empty body, the table afterwards is the old one without that id, and
    [getProduct] on the id then answers 404. *)
Theorem delete_removes (event : Event.t) (id : string) (old : obj) (w : World) :
  path_id event = Some id ->
  table w !! id = Some old ->
  deletes Part000.deleteProduct Part000.getProduct event id w
  /\ deletes Part001.deleteProduct Part001.getProduct event id w.
Proof.
  intros Eid E. split.
  - do 2 eexists. rewrite (p0_delete_ok _ _ _ _ Eid E).
    repeat split. intros event' Eid'. eexists.
    rewrite (p0_get_missing event' id); [done|done|].
    simpl. apply lookup_delete_eq.
  - do 2 eexists. rewrite (p1_delete_ok _ _ _ _ Eid E).
    repeat split. intros event' Eid'. eexists.
    rewrite (p1_get_missing event' id); [done|done|].
    simpl. apply lookup_delete_eq.
Qed.

(** C9.  [getProduct] and [listProduct] return the world they were given,
    for every event and every world, whether they answer 200 or 404 or let
    the store's refusal of an [undefined] key escape. *)
Theorem reads_leave_store (event : Event.t) (w : World) :
  snd (HandlersTs.getProduct event w) = w
  /\ snd (Part000.getProduct event w) = w
  /\ snd (Part001.getProduct event w) = w
  /\ snd (Part000.listProduct event w) = w
  /\ snd (Part001.listProduct event w) = w.
Proof.
  repeat split; try done.
  - unfold HandlersTs.getProduct, bind, docClient_get.
    destruct (path_id event); [|done]. by destruct (table w !! s).
  - unfold Part000.getProduct, try_catch, bind, Part000.fetchProductById, bind, docClient_get.
    destruct (path_id event); [|done]. by destruct (table w !! s).
  - unfold Part001.getProduct, try_catch, bind, Part001.fetchProductById, bind, docClient_get.
    destruct (path_id event); [|done]. by destruct (table w !! s).
Qed.

(** C6.  For every id that has a record and every body the schema accepts,
    [updateProduct] answers 200, the record it stores under the path id has
    that id as [productId] (whatever the body says) and the body's four
    fields, and [getProduct] on the id then answers 200 with that record. *)
Theorem update_replaces (event : Event.t) (id : string) (old o : obj) (w : World) :
  path_id event = Some id ->
  table w !! id = Some old ->
  JSON_parse (default "null" (Event.body event)) = inr (JObj o) ->
  validate (JObj o) = inr tt ->
  replaces Part000.updateProduct Part000.getProduct event id o w
  /\ replaces Part001.updateProduct Part001.getProduct event id o w.
Proof.
  intros Eid E Ep Ev. split.
  - do 2 eexists. rewrite (p0_update_ok _ _ _ _ _ Eid E Ep Ev).
    split; [done|]. split; [done|]. split; [apply with_id_id|]. split.
    + intros path t Hin. apply with_id_other.
      intros ->. by apply schema_not_id in Hin.
    + intros event' Eid'. apply (p0_get_found event' id); [done|apply stored_lookup].
  - do 2 eexists. rewrite (p1_update_ok _ _ _ _ _ Eid E Ep).
    split; [done|]. split; [done|]. split; [apply with_id_id|]. split.
    + intros path t Hin. apply with_id_other.
      intros ->. by apply schema_not_id in Hin.
    + intros event' Eid'. apply (p1_get_found event' id); [done|apply stored_lookup].
Qed.


(** *** Create then Get *)

(** In the two later revisions the record is stored under the id that is
    returned, so Get on that id answers 200 with the very record. *)
Lemma p0_round_trip (event event' : Event.t) (reqBody : json) (w : World) :
  JSON_parse (default "null" (Event.body event)) = inr reqBody ->
  validate reqBody = inr tt ->
  path_id event' = Some (next_id w) ->
  exists w', Part000.createProduct event w
             = (inr (ok 200 (JObj (with_id (next_id w) reqBody))), w')
    /\ Part000.getProduct event' w'
       = (inr (ok 200 (JObj (with_id (next_id w) reqBody))), w').
Proof.
  intros Ep Ev Eid. eexists. rewrite (p0_create_ok _ _ _ Ep Ev).
  split; [done|]. apply (p0_get_found event' (next_id w)); [done|apply stored_lookup].
Qed.

Lemma p1_round_trip (event event' : Event.t) (reqBody : json) (w : World) :
  JSON_parse (default "null" (Event.body event)) = inr reqBody ->
  path_id event' = Some (next_id w) ->
  exists w', Part001.createProduct event w
             = (inr (ok 200 (JObj (with_id (next_id w) reqBody))), w')
    /\ Part001.getProduct event' w'
       = (inr (ok 200 (JObj (with_id (next_id w) reqBody))), w').
Proof.
  intros Ep Eid. eexists. rewrite (p1_create_ok _ _ _ Ep).
  split; [done|]. apply (p1_get_found event' (next_id w)); [done|apply stored_lookup].
Qed.

(** In [src/handlers.ts] the record is stored under the second id: when the
    two ids differ and the returned one is not in the table already, Get on
    the returned id answers 404. *)
Lemma ts_round_trip_misses (event event' : Event.t) (reqBody : json) (w : World) :
  JSON_parse (default "null" (Event.body event)) = inr reqBody ->
  next_id w <> second_id w ->
  table w !! next_id w = None ->
  path_id event' = Some (next_id w) ->
  exists r w', HandlersTs.createProduct event w = (inr r, w')
    /\ Result.body r = JSON_stringify (JObj (with_id (next_id w) reqBody))
    /\ answers HandlersTs.getProduct event' w' 404 not_found_text.
Proof.
  intros Ep Hne E Eid. do 2 eexists. rewrite (ts_create_ok _ _ _ Ep).
  split; [done|]. split; [done|]. eexists.
  rewrite (ts_get_missing event' (next_id w)); [done|done|].
  simpl. by rewrite lookup_insert_ne.
Qed.

(** C2, as amended.  For every body that parses (and, in the revision that
    validates, that the schema accepts), the [productId] of the record
    [createProduct] answers with is the id [v4()] made from the random
    source: thirty-six characters, so not empty, and put in place of any
    [productId] of the body.  It differs from a [productId] the body
    supplies unless the body supplies that very id. *)
Theorem create_id_is_generated (event : Event.t) (reqBody : json) (w : World) :
  JSON_parse (default "null" (Event.body event)) = inr reqBody ->
  validate reqBody = inr tt ->
  String.length (next_id w) = 36%nat
  /\ next_id w <> ""
  /\ creates_with HandlersTs.createProduct event reqBody (next_id w) w
  /\ creates_with Part000.createProduct event reqBody (next_id w) w
  /\ creates_with Part001.createProduct event reqBody (next_id w) w
  /\ obj_get "productId" (with_id (next_id w) reqBody) = Some (JStr (next_id w))
  /\ (obj_get "productId" (spread reqBody) <> Some (JStr (next_id w)) ->
      obj_get "productId" (with_id (next_id w) reqBody)
      <> obj_get "productId" (spread reqBody)).
Proof.
  intros Ep Ev.
  split; [apply uuid_of_length|]. split; [apply uuid_of_nonempty|].
  split; [|split; [|split; [|split]]].
  - do 2 eexists. by rewrite (ts_create_ok _ _ _ Ep).
  - do 2 eexists. by rewrite (p0_create_ok _ _ _ Ep Ev).
  - do 2 eexists. by rewrite (p1_create_ok _ _ _ Ep).
  - apply with_id_id.
  - intros Hne. rewrite with_id_id. congruence.
Qed.

(** C4, as amended.  When the body is not JSON, the handlers that map
    errors ([unnamed/part_000]) answer 400 with the body
    {"error":"Invalid request body format: <message of the SyntaxError>"}
    and return the world they were given: [createProduct] always,
    [updateProduct] when the path id has a record (the record is looked up
    before the body is parsed). *)
Theorem malformed_body_is_400 (event : Event.t) (message : string) (w : World) :
  JSON_parse (default "null" (Event.body event)) = inl message ->
  Part000.createProduct event w = (inr (bad_format message), w)
  /\ (forall id old, path_id event = Some id -> table w !! id = Some old ->
        Part000.updateProduct event w = (inr (bad_format message), w))
  /\ Result.statusCode (bad_format message) = 400
  /\ Result.body (bad_format message)
     = JSON_stringify (JObj [("error", JStr ("Invalid request body format: " ++ message))]).
Proof.
  intros Ep. split; [by apply p0_create_syntax|]. split; [|done].
  intros id old Eid E. by apply (p0_update_syntax _ id old).
Qed.

(** *** Validation *)

Lemma prefix_app (s t : string) : String.prefix s (s ++ t) = true.
Proof.
  induction s as [|c s IH]; simpl; [by destruct t|].
  by destruct (ascii_dec c c).
Qed.

Lemma messages_In (rs : list verdict) (message : string) :
  In (Rejected message) rs -> In message (messages rs).
Proof.
  induction rs as [|r rs IH]; simpl; [done|].
  intros [->|Hin]; [by left|].
  destruct r; simpl; auto.
Qed.

Lemma verdicts_In (o : obj) (path : string) (t : ftype) :
  In (path, t) schema -> In (field_verdict o path t) (verdicts o).
Proof.
  intros Hin. unfold verdicts, field_verdict.
  by apply (in_map (fun f => validate_field (fst f) (snd f) (obj_get (fst f) o)) schema (path, t)).
Qed.

Lemma no_throw (o : obj) :
  (forall path t, In (path, t) schema -> field_verdict o path t <> Throws) ->
  existsb is_throw (verdicts o) = false.
Proof.
  intros Hno. apply not_true_is_false. intros Hex.
  apply existsb_exists in Hex as (r & Hin & Hr).
  unfold verdicts in Hin. apply in_map_iff in Hin as ([path t] & <- & Hin).
  destruct (validate_field _ _ _) eqn:E; try done.
  by apply (Hno path t Hin).
Qed.

(** A rejected field's message starts with the field's name. *)
Lemma rejected_names_field (path : string) (t : ftype) (value : option json) (message : string) :
  validate_field path t value = Rejected message -> String.prefix path message = true.
Proof.
  unfold validate_field, required_message, notType_message.
  destruct value as [v|]; [|intros [= <-]; apply prefix_app].
  destruct (cast t v) as [v'| |]; [|intros [= <-]; apply prefix_app|done].
  destruct (typeCheck t v'); [|intros [= <-]; apply prefix_app].
  destruct (isPresent t v'); [done|intros [= <-]; apply prefix_app].
Qed.



(** A value of a JSON type that the field's cast cannot turn into the
    field's type is rejected: an array or an object for a string, a boolean
    for a number. *)
Lemma string_field_rejects_array (path : string) (l : list json) :
  exists message, validate_field path TString (Some (JArr l)) = Rejected message.
Proof. simpl. eauto. Qed.

Lemma number_field_rejects_boolean (path : string) (b : bool) :
  exists message, validate_field path TNumber (Some (JBool b)) = Rejected message.
Proof. simpl. eauto. Qed.

(** The casts that make a value of another type pass: a boolean, and a
    number whose text is not empty, for a string field; a string that reads
    as a number for a number field. *)
Lemma string_field_takes_boolean (path : string) (b : bool) :
  validate_field path TString (Some (JBool b)) = Accepted.
Proof. by destruct b. Qed.

Lemma string_field_takes_number (path : string) (n : number) :
  Number_toString n <> "" ->
  validate_field path TString (Some (JNum n)) = Accepted.
Proof.
  intros Hn. simpl. destruct (String.eqb_spec (Number_toString n) ""); done.
Qed.

Lemma number_field_takes_numeric_string (path s : string) (n : number) :
  strip_spaces s <> "" ->
  Number_ofString (strip_spaces s) = Some n ->
  validate_field path TNumber (Some (JStr s)) = Accepted.
Proof.
  intros Hs Hn. simpl. destruct (String.eqb_spec (strip_spaces s) ""); [done|].
  by rewrite Hn.
Qed.

(** A field that holds [null], a boolean, a number or a string never makes
    the cast throw. *)
Lemma scalar_never_throws (path : string) (t : ftype) (v : json) :
  match v with JArr _ | JObj _ => False | _ => True end ->
  validate_field path t (Some v) <> Throws.
Proof.
  intros Hv. destruct v; try done; destruct t; simpl;
    repeat match goal with
           | |- context [if ?c then _ else _] => destruct c; simpl
           | |- context [of_number ?x] => destruct x; simpl
           end; done.
Qed.

(** An empty string is a string, and [required()] rejects it. *)
Lemma string_field_rejects_empty (path : string) :
  validate_field path TString (Some (JStr "")) = Rejected (required_message path).
Proof. reflexivity. Qed.

(** A body whose four fields have the types the schema names, the two
    strings not empty, is accepted. *)
Lemma typed_body_is_valid (o : obj) (name description : string) (price : number)
    (available : bool) :
  obj_get "name" o = Some (JStr name) -> name <> "" ->
  obj_get "description" o = Some (JStr description) -> description <> "" ->
  obj_get "price" o = Some (JNum price) ->
  obj_get "available" o = Some (JBool available) ->
  validate (JObj o) = inr tt.
Proof.
  intros En Hn Ed Hd Ep Ea.
  unfold validate, object_cast, verdicts, schema. simpl.
  rewrite En, Ed, Ep, Ea. simpl.
  destruct (String.eqb_spec name ""); [done|].
  destruct (String.eqb_spec description ""); [done|]. done.
Qed.

(** A body that is [null] is rejected with one message, about the body
    itself. *)
Lemma null_body_rejected :
  validate JNull = inl (ValidationError [notType_message "this" "object" (Some JNull) JNull]).
Proof. reflexivity. Qed.

Lemma validate_rejects (o : obj) :
  existsb is_throw (verdicts o) = false ->
  messages (verdicts o) <> [] ->
  validate (JObj o) = inl (ValidationError (messages (verdicts o))).
Proof.
  intros Hno Hne. unfold validate, object_cast. rewrite Hno.
  by destruct (messages (verdicts o)).
Qed.


End Claims.

(** ** The claims on the sample runtime *)

Section Samples.
Import Sample.
#[local] Existing Instance numbers.
#[local] Existing Instance runtime.

(** The two ids [v4()] makes first in [empty_world]. *)
Lemma sample_ids :
  next_id empty_world = "00000000-0000-4000-8000-000000000000"
  /\ second_id empty_world = "00000000-0000-4000-8000-000000000001".
Proof. split; reflexivity. Qed.

(** C1.  In [src/handlers.ts] the round trip fails: [createProduct] on the
    widget answers 200 with a record whose [productId] ends in 0000, the
    table holds the record under the id that ends in 0001 only, and
    [getProduct] on the returned id answers 404. *)
Theorem handlers_ts_round_trip_fails :
  exists created w',
    HandlersTs.createProduct (post (JSON_stringify widget)) empty_world = (inr created, w')
    /\ Result.statusCode created = 200
    /\ Result.body created
       = JSON_stringify (JObj (with_id "00000000-0000-4000-8000-000000000000" widget))
    /\ table w' !! "00000000-0000-4000-8000-000000000000" = None
    /\ table w' !! "00000000-0000-4000-8000-000000000001"
       = Some (with_id "00000000-0000-4000-8000-000000000001" widget)
    /\ answers HandlersTs.getProduct
         (at_id "00000000-0000-4000-8000-000000000000" None) w' 404 not_found_text.
Proof.
  do 2 eexists.
  rewrite (ts_create_ok (post (JSON_stringify widget)) widget empty_world)
    by reflexivity.
  split; [reflexivity|]. split; [reflexivity|]. split; [reflexivity|].
  split; [reflexivity|]. split; [reflexivity|].
  eexists. split.
  - by apply (ts_get_missing _ "00000000-0000-4000-8000-000000000000").
  - done.
Qed.

(** C2, the claim as stated fails: the widget body supplies the id
    00000000-0000-4000-8000-000000000000, the schema accepts the body, and
    in [empty_world] the record [createProduct] answers with has that same
    [productId]. *)
Lemma supplied_id_can_be_returned :
  JSON_parse (JSON_stringify widget_with_id) = inr widget_with_id
  /\ validate widget_with_id = inr tt
  /\ obj_get "productId" (spread widget_with_id)
     = Some (JStr "00000000-0000-4000-8000-000000000000")
  /\ creates_with Part000.createProduct (post (JSON_stringify widget_with_id))
       widget_with_id "00000000-0000-4000-8000-000000000000" empty_world
  /\ obj_get "productId" (with_id "00000000-0000-4000-8000-000000000000" widget_with_id)
     = Some (JStr "00000000-0000-4000-8000-000000000000").
Proof.
  split; [reflexivity|]. split; [reflexivity|]. split; [reflexivity|].
  split; [|reflexivity].
  do 2 eexists.
  rewrite (p0_create_ok (post (JSON_stringify widget_with_id)) widget_with_id
             empty_world) by reflexivity.
  split; [reflexivity|]. split; reflexivity.
Qed.

Lemma create_id_is_generated_witness :
  JSON_parse (default "null" (Event.body (post (JSON_stringify widget)))) = inr widget
  /\ validate widget = inr tt
  /\ creates_with Part000.createProduct (post (JSON_stringify widget))
       widget (next_id empty_world) empty_world.
Proof.
  split; [reflexivity|]. split; [reflexivity|].
  apply (create_id_is_generated (post (JSON_stringify widget)) widget empty_world);
    reflexivity.
Defined.



(** C4, the claim as stated fails: the body is not JSON and the id has no
    record, and [updateProduct] answers 404, not 400. *)
Lemma malformed_update_of_missing_id_is_404 :
  JSON_parse "{" = inl "Unexpected end of JSON input"
  /\ table one_record !! "p2" = None
  /\ answers Part000.updateProduct (at_id "p2" (Some "{")) one_record 404 not_found_text.
Proof.
  split; [reflexivity|]. split; [reflexivity|].
  eexists. split.
  - by apply (p0_update_missing _ "p2").
  - done.
Qed.

Lemma malformed_body_is_400_witness :
  JSON_parse (default "null" (Event.body (at_id "p1" (Some "{"))))
  = inl "Unexpected end of JSON input"
  /\ Part000.createProduct (at_id "p1" (Some "{")) one_record
     = (inr (bad_format "Unexpected end of JSON input"), one_record)
  /\ Part000.updateProduct (at_id "p1" (Some "{")) one_record
     = (inr (bad_format "Unexpected end of JSON input"), one_record).
Proof.
  assert (Hparse : JSON_parse (default "null" (Event.body (at_id "p1" (Some "{"))))
                   = inl "Unexpected end of JSON input") by reflexivity.
  split; [exact Hparse|].
  destruct (malformed_body_is_400 (at_id "p1" (Some "{"))
              "Unexpected end of JSON input" one_record Hparse)
    as (Hcreate & Hupdate & _).
  split; [exact Hcreate|].
  apply (Hupdate "p1" (with_id "p1" widget)); reflexivity.
Defined.

Lemma update_missing_is_404_witness :
  path_id (at_id "p2" (Some (JSON_stringify widget))) = Some "p2"
  /\ table one_record !! "p2" = None
  /\ answers Part000.updateProduct (at_id "p2" (Some (JSON_stringify widget)))
       one_record 404 not_found_text
  /\ answers Part001.updateProduct (at_id "p2" (Some (JSON_stringify widget)))
       one_record 404 not_found_text.
Proof.
  split; [reflexivity|]. split; [reflexivity|].
  apply (update_missing_is_404 (at_id "p2" (Some (JSON_stringify widget))) "p2" one_record);
    reflexivity.
Defined.

Lemma update_replaces_witness :
  path_id (at_id "p1" (Some (JSON_stringify widget_with_id))) = Some "p1"
  /\ table one_record !! "p1" = Some (with_id "p1" widget)
  /\ validate widget_with_id = inr tt
  /\ replaces Part000.updateProduct Part000.getProduct
       (at_id "p1" (Some (JSON_stringify widget_with_id))) "p1"
       (spread widget_with_id) one_record
  /\ replaces Part001.updateProduct Part001.getProduct
       (at_id "p1" (Some (JSON_stringify widget_with_id))) "p1"
       (spread widget_with_id) one_record.
Proof.
  split; [reflexivity|]. split; [reflexivity|]. split; [reflexivity|].
  apply (update_replaces (at_id "p1" (Some (JSON_stringify widget_with_id))) "p1"
           (with_id "p1" widget) (spread widget_with_id) one_record);
    reflexivity.
Defined.

Lemma get_missing_is_404_witness :
  path_id (at_id "p2" None) = Some "p2"
  /\ table one_record !! "p2" = None
  /\ answers HandlersTs.getProduct (at_id "p2" None) one_record 404 not_found_text
  /\ answers Part000.getProduct (at_id "p2" None) one_record 404 not_found_text
  /\ answers Part001.getProduct (at_id "p2" None) one_record 404 not_found_text.
Proof.
  split; [reflexivity|]. split; [reflexivity|].
  apply (get_missing_is_404 (at_id "p2" None) "p2" one_record); reflexivity.
Defined.

Lemma delete_removes_witness :
  path_id (at_id "p1" None) = Some "p1"
  /\ table one_record !! "p1" = Some (with_id "p1" widget)
  /\ deletes Part000.deleteProduct Part000.getProduct (at_id "p1" None) "p1" one_record
  /\ deletes Part001.deleteProduct Part001.getProduct (at_id "p1" None) "p1" one_record.
Proof.
  split; [reflexivity|]. split; [reflexivity|].
  apply (delete_removes (at_id "p1" None) "p1" (with_id "p1" widget) one_record);
    reflexivity.
Defined.


End Samples.

(** ** What each handler does, case by case *)

Section Outcomes.
Context `{Runtime}.

(** [schema.validate] resolves, or rejects with a [ValidationError] that
    carries at least one message, or lets a cast's [TypeError] through. *)
Lemma validate_cases (v : json) :
  validate v = inr tt
  \/ validate v = inl TypeError
  \/ exists errors, errors <> [] /\ validate v = inl (ValidationError errors).
Proof.
  unfold validate. destruct (object_cast v) as [o|].
  - cbv zeta. destruct (existsb is_throw (verdicts o)); [right; left; done|].
    destruct (messages (verdicts o)) as [|m ms]; [left; done|].
    right; right. by exists (m :: ms).
  - right; right. eexists. split; [|done]. done.
Qed.

Lemma p0_get_eq (event : Event.t) (w : World) :
  Part000.getProduct event w
  = match path_id event with
    | None => (inl StoreError, w)
    | Some id =>
        match table w !! id with
        | Some Item => (inr (ok 200 (JObj Item)), w)
        | None => (inr not_found, w)
        end
    end.
Proof.
  destruct (path_id event) as [id|] eqn:Eid.
  - destruct (table w !! id) eqn:E;
      [by apply (p0_get_found _ id)|by apply (p0_get_missing _ id)].
  - unfold Part000.getProduct, try_catch, bind, Part000.fetchProductById, bind.
    by rewrite Eid.
Qed.

Lemma p0_create_eq (event : Event.t) (w : World) :
  Part000.createProduct event w
  = match JSON_parse (default "null" (Event.body event)) with
    | inl message => (inr (bad_format message), w)
    | inr reqBody =>
        match validate reqBody with
        | inr _ =>
            (inr (ok 200 (JObj (with_id (next_id w) reqBody))),
             stored (next_id w) (with_id (next_id w) reqBody) 1 w)
        | inl e => Part000.handleError e w
        end
    end.
Proof.
  destruct (JSON_parse _) as [message|reqBody] eqn:Ep; [by apply p0_create_syntax|].
  destruct (validate reqBody) as [e|[]] eqn:Ev; [|by apply p0_create_ok].
  unfold Part000.createProduct, try_catch, bind at 1.
  unfold parse_body. rewrite Ep. unfold bind at 1, ret at 1.
  unfold bind at 1, schema_validate. by rewrite Ev.
Qed.

Lemma p0_update_eq (event : Event.t) (w : World) :
  Part000.updateProduct event w
  = match path_id event with
    | None => (inl StoreError, w)
    | Some id =>
        match table w !! id with
        | None => (inr not_found, w)
        | Some _ =>
            match JSON_parse (default "null" (Event.body event)) with
            | inl message => (inr (bad_format message), w)
            | inr reqBody =>
                match validate reqBody with
                | inr _ =>
                    (inr (ok 200 (JObj (with_id id reqBody))),
                     stored id (with_id id reqBody) 0 w)
                | inl e => Part000.handleError e w
                end
            end
        end
    end.
Proof.
  destruct (path_id event) as [id|] eqn:Eid.
  - destruct (table w !! id) as [old|] eqn:E; [|by apply (p0_update_missing _ id)].
    destruct (JSON_parse _) as [message|reqBody] eqn:Ep;
      [by apply (p0_update_syntax _ id old)|].
    destruct (validate reqBody) as [e|[]] eqn:Ev; [|by apply (p0_update_ok _ id old)].
    unfold Part000.updateProduct, try_catch, bind at 1.
    rewrite Eid, (p0_fetch_found _ _ _ E).
    unfold bind at 1, parse_body. rewrite Ep. unfold ret at 1.
    unfold bind at 1, schema_validate. by rewrite Ev.
  - unfold Part000.updateProduct, try_catch, bind at 1, Part000.fetchProductById, bind at 1.
    by rewrite Eid.
Qed.

Lemma p0_delete_eq (event : Event.t) (w : World) :
  Part000.deleteProduct event w
  = match path_id event with
    | None => (inl StoreError, w)
    | Some id =>
        match table w !! id with
        | None => (inr not_found, w)
        | Some _ => (inr no_content, set_table (delete id) w)
        end
    end.
Proof.
  destruct (path_id event) as [id|] eqn:Eid.
  - destruct (table w !! id) as [old|] eqn:E; [by apply (p0_delete_ok _ id old)|].
    unfold Part000.deleteProduct, try_catch, bind at 1.
    by rewrite Eid, (p0_fetch_missing _ _ E).
  - unfold Part000.deleteProduct, try_catch, bind at 1, Part000.fetchProductById, bind at 1.
    by rewrite Eid.
Qed.

Lemma p1_get_eq (event : Event.t) (w : World) :
  Part001.getProduct event w
  = match path_id event with
    | None => (inl StoreError, w)
    | Some id =>
        match table w !! id with
        | Some Item => (inr (ok 200 (JObj Item)), w)
        | None => (inr not_found, w)
        end
    end.
Proof.
  destruct (path_id event) as [id|] eqn:Eid.
  - destruct (table w !! id) eqn:E;
      [by apply (p1_get_found _ id)|by apply (p1_get_missing _ id)].
  - unfold Part001.getProduct, try_catch, bind, Part001.fetchProductById, bind.
    by rewrite Eid.
Qed.

Lemma p1_create_eq (event : Event.t) (w : World) :
  Part001.createProduct event w
  = match JSON_parse (default "null" (Event.body event)) with
    | inl message => (inl (SyntaxError message), w)
    | inr reqBody =>
        (inr (ok 200 (JObj (with_id (next_id w) reqBody))),
         stored (next_id w) (with_id (next_id w) reqBody) 1 w)
    end.
Proof.
  destruct (JSON_parse _) as [message|reqBody] eqn:Ep;
    [by apply p1_create_syntax|by apply p1_create_ok].
Qed.

Lemma p1_update_eq (event : Event.t) (w : World) :
  Part001.updateProduct event w
  = match path_id event with
    | None => (inl StoreError, w)
    | Some id =>
        match table w !! id with
        | None => (inr not_found, w)
        | Some _ =>
            match JSON_parse (default "null" (Event.body event)) with
            | inl message => (inl (SyntaxError message), w)
            | inr reqBody =>
                (inr (ok 200 (JObj (with_id id reqBody))),
                 stored id (with_id id reqBody) 0 w)
            end
        end
    end.
Proof.
  destruct (path_id event) as [id|] eqn:Eid.
  - destruct (table w !! id) as [old|] eqn:E; [|by apply (p1_update_missing _ id)].
    destruct (JSON_parse _) as [message|reqBody] eqn:Ep;
      [by apply (p1_update_syntax _ id old)|by apply (p1_update_ok _ id old)].
  - unfold Part001.updateProduct, try_catch, bind at 1, Part001.fetchProductById, bind at 1.
    by rewrite Eid.
Qed.

Lemma p1_delete_eq (event : Event.t) (w : World) :
  Part001.deleteProduct event w
  = match path_id event with
    | None => (inl StoreError, w)
    | Some id =>
        match table w !! id with
        | None => (inr not_found, w)
        | Some _ => (inr no_content, set_table (delete id) w)
        end
    end.
Proof.
  destruct (path_id event) as [id|] eqn:Eid.
  - destruct (table w !! id) as [old|] eqn:E; [by apply (p1_delete_ok _ id old)|].
    unfold Part001.deleteProduct, try_catch, bind at 1.
    by rewrite Eid, (p1_fetch_missing _ _ E).
  - unfold Part001.deleteProduct, try_catch, bind at 1, Part001.fetchProductById, bind at 1.
    by rewrite Eid.
Qed.

Lemma ts_get_eq (event : Event.t) (w : World) :
  HandlersTs.getProduct event w
  = match path_id event with
    | None => (inl StoreError, w)
    | Some id =>
        match table w !! id with
        | Some Item => (inr (bare 200 (JObj Item)), w)
        | None => (inr (bare 404 (JObj product_not_found)), w)
        end
    end.
Proof.
  destruct (path_id event) as [id|] eqn:Eid.
  - destruct (table w !! id) eqn:E;
      [by apply (ts_get_found _ id)|by apply (ts_get_missing _ id)].
  - unfold HandlersTs.getProduct, bind. by rewrite Eid.
Qed.

Lemma ts_create_eq (event : Event.t) (w : World) :
  HandlersTs.createProduct event w
  = match JSON_parse (default "null" (Event.body event)) with
    | inl message => (inl (SyntaxError message), w)
    | inr reqBody =>
        (inr (bare 200 (JObj (with_id (next_id w) reqBody))),
         stored (second_id w) (with_id (second_id w) reqBody) 2 w)
    end.
Proof.
  destruct (JSON_parse _) as [message|reqBody] eqn:Ep;
    [by apply ts_create_syntax|by apply ts_create_ok].
Qed.

Lemma list_eq (event : Event.t) (w : World) :
  Part000.listProduct event w = (inr (ok 200 (JArr (map JObj (scanned w)))), w)
  /\ Part001.listProduct event w = (inr (ok 200 (JArr (map JObj (scanned w)))), w).
Proof. done. Qed.

(** What [handleError] of [unnamed/part_000] makes of a rejected
    validation. *)
Lemma p0_handle_validate (v : json) (e : exn) (w : World) :
  validate v = inl e ->
  (e = TypeError /\ Part000.handleError e w = (inl TypeError, w))
  \/ exists errors, errors <> [] /\ e = ValidationError errors
       /\ Part000.handleError e w = (inr (bad_fields errors), w).
Proof.
  intros Ev. destruct (validate_cases v) as [E|[E|(errors & Hne & E)]];
    rewrite E in Ev; inversion Ev; subst; [by left|].
  right. by exists errors.
Qed.

Lemma stored_twice (k : string) (Item : obj) (w : World) :
  stored k Item 0 (stored k Item 0 w) = stored k Item 0 w.
Proof. unfold stored. simpl. by rewrite insert_insert_eq. Qed.

Lemma stored_keyed (k : string) (reqBody : json) (n : nat) (w : World) :
  keyed w -> keyed (stored k (with_id k reqBody) n w).
Proof.
  intros Hk k' Item. unfold stored. simpl.
  rewrite lookup_insert. case_decide as E.
  - intros [= <-]. subst k'. apply with_id_id.
  - apply Hk.
Qed.

Lemma deleted_keyed (k : string) (w : World) :
  keyed w -> keyed (set_table (delete k) w).
Proof.
  intros Hk k' Item. unfold set_table. simpl.
  rewrite lookup_delete_Some. intros [_ E]. by apply Hk.
Qed.

End Outcomes.

(** ** Further behaviour of the handlers *)

Section Behaviour.
Context `{Runtime}.

Ltac split_cases :=
  repeat match goal with
         | H : context [match ?x with _ => _ end] |- _ => destruct x eqn:?
         | |- context [match ?x with _ => _ end] => destruct x eqn:?
         end.

(** X1.  For every id with no record, [deleteProduct] answers 404 with the
    text {"error":"Product not found"} and returns the world it was given:
    no delete is sent. *)
Theorem delete_missing_is_404 (event : Event.t) (id : string) (w : World) :
  path_id event = Some id ->
  table w !! id = None ->
  answers Part000.deleteProduct event w 404 not_found_text
  /\ answers Part001.deleteProduct event w 404 not_found_text.
Proof.
  intros Eid E. split; eexists.
  - rewrite p0_delete_eq, Eid. unfold obj in *. rewrite E. done.
  - rewrite p1_delete_eq, Eid. unfold obj in *. rewrite E. done.
Qed.

(** X2.  For every id that has a record, [getProduct] answers 200 with the
    stored record as JSON and returns the world it was given, in the three
    revisions. *)
Theorem get_found_is_200 (event : Event.t) (id : string) (Item : obj) (w : World) :
  path_id event = Some id ->
  table w !! id = Some Item ->
  answers HandlersTs.getProduct event w 200 (JSON_stringify (JObj Item))
  /\ answers Part000.getProduct event w 200 (JSON_stringify (JObj Item))
  /\ answers Part001.getProduct event w 200 (JSON_stringify (JObj Item)).
Proof.
  intros Eid E. split; [|split]; eexists.
  - rewrite ts_get_eq, Eid. unfold obj in *. rewrite E. done.
  - rewrite p0_get_eq, Eid. unfold obj in *. rewrite E. done.
  - rewrite p1_get_eq, Eid. unfold obj in *. rewrite E. done.
Qed.

(** X3.  [listProduct] answers 200 with the array of the records the scan
    finds and returns the world it was given: as many records as the table
    has keys, a record being listed exactly when it is stored under some
    id; on an empty table the body is the text []. *)
Theorem list_returns_every_record (event : Event.t) (w : World) :
  Part000.listProduct event w = (inr (ok 200 (JArr (map JObj (scanned w)))), w)
  /\ Part001.listProduct event w = (inr (ok 200 (JArr (map JObj (scanned w)))), w)
  /\ length (scanned w) = size (table w)
  /\ (forall Item, In Item (scanned w) <-> exists id, table w !! id = Some Item)
  /\ (table w = ∅ -> Result.body (ok 200 (JArr (map JObj (scanned w)))) = "[]").
Proof.
  split; [done|]. split; [done|]. unfold scanned. split; [|split].
  - by rewrite length_fmap, length_map_to_list.
  - intros Item. rewrite <- list_elem_of_In, list_elem_of_fmap. split.
    + intros ([id Item'] & -> & Hin). exists id. by apply elem_of_map_to_list.
    + intros (id & E). exists (id, Item). split; [done|]. by apply elem_of_map_to_list.
  - intros ->. by rewrite map_to_list_empty.
Qed.

(** X4.  The status codes of [unnamed/part_000]: whenever a handler answers,
    [createProduct] answers 200 or 400, [getProduct] 200 or 404,
    [updateProduct] 200, 400 or 404, [deleteProduct] 204 or 404, and
    [listProduct] 200. *)
Theorem part_000_status_codes (event : Event.t) (w w' : World) (r : Result.t) :
  (Part000.createProduct event w = (inr r, w') ->
     Result.statusCode r = 200 \/ Result.statusCode r = 400)
  /\ (Part000.getProduct event w = (inr r, w') ->
        Result.statusCode r = 200 \/ Result.statusCode r = 404)
  /\ (Part000.updateProduct event w = (inr r, w') ->
        Result.statusCode r = 200 \/ Result.statusCode r = 400 \/ Result.statusCode r = 404)
  /\ (Part000.deleteProduct event w = (inr r, w') ->
        Result.statusCode r = 204 \/ Result.statusCode r = 404)
  /\ (Part000.listProduct event w = (inr r, w') -> Result.statusCode r = 200).
Proof.
  repeat split.
  - rewrite p0_create_eq. intros Hrun. split_cases; simplify_eq; auto.
    all: match goal with E : validate _ = inl _ |- _ =>
           destruct (p0_handle_validate _ _ w E) as [[-> Hh]|(errors & _ & -> & Hh)];
           rewrite Hh in Hrun; simplify_eq; auto end.
  - rewrite p0_get_eq. intros Hrun. split_cases; simplify_eq; auto.
  - rewrite p0_update_eq. intros Hrun. split_cases; simplify_eq; auto.
    all: match goal with E : validate _ = inl _ |- _ =>
           destruct (p0_handle_validate _ _ w E) as [[-> Hh]|(errors & _ & -> & Hh)];
           rewrite Hh in Hrun; simplify_eq; auto end.
  - rewrite p0_delete_eq. intros Hrun. split_cases; simplify_eq; auto.
  - intros Hrun. destruct (list_eq event w) as [E _]. rewrite E in Hrun. by simplify_eq.
Qed.

Ltac handled w Hrun :=
  match goal with
  | E : validate _ = inl _ |- _ =>
      let Hh := fresh "Hh" in
      destruct (p0_handle_validate _ _ w E) as [[-> Hh]|(? & _ & -> & Hh)];
      rewrite Hh in Hrun
  end.

(** X5.  The status codes of the revisions that do not validate: whenever
    a handler answers, [createProduct] answers 200, [getProduct] 200 or
    404, [updateProduct] 200 or 404 and [deleteProduct] 204 or 404. *)
Theorem unvalidated_status_codes (event : Event.t) (w w' : World) (r : Result.t) :
  (HandlersTs.createProduct event w = (inr r, w') -> Result.statusCode r = 200)
  /\ (HandlersTs.getProduct event w = (inr r, w') ->
        Result.statusCode r = 200 \/ Result.statusCode r = 404)
  /\ (Part001.createProduct event w = (inr r, w') -> Result.statusCode r = 200)
  /\ (Part001.getProduct event w = (inr r, w') ->
        Result.statusCode r = 200 \/ Result.statusCode r = 404)
  /\ (Part001.updateProduct event w = (inr r, w') ->
        Result.statusCode r = 200 \/ Result.statusCode r = 404)
  /\ (Part001.deleteProduct event w = (inr r, w') ->
        Result.statusCode r = 204 \/ Result.statusCode r = 404).
Proof.
  repeat split.
  - rewrite ts_create_eq. intros Hrun. split_cases; simplify_eq; auto.
  - rewrite ts_get_eq. intros Hrun. split_cases; simplify_eq; auto.
  - rewrite p1_create_eq. intros Hrun. split_cases; simplify_eq; auto.
  - rewrite p1_get_eq. intros Hrun. split_cases; simplify_eq; auto.
  - rewrite p1_update_eq. intros Hrun. split_cases; simplify_eq; auto.
  - rewrite p1_delete_eq. intros Hrun. split_cases; simplify_eq; auto.
Qed.



(** X8.  A request that does not succeed writes nothing: every run of
    [createProduct] and [updateProduct] either answers 200 or returns the
    world it was given, and so does every run of [deleteProduct] with 204,
    in the three revisions. *)
Theorem failures_write_nothing (event : Event.t) (w : World) :
  writes_only_on 200 (HandlersTs.createProduct event w) w
  /\ writes_only_on 200 (Part000.createProduct event w) w
  /\ writes_only_on 200 (Part000.updateProduct event w) w
  /\ writes_only_on 204 (Part000.deleteProduct event w) w
  /\ writes_only_on 200 (Part001.createProduct event w) w
  /\ writes_only_on 200 (Part001.updateProduct event w) w
  /\ writes_only_on 204 (Part001.deleteProduct event w) w.
Proof.
  unfold writes_only_on.
  split; [|split; [|split; [|split; [|split; [|split]]]]].
  - rewrite ts_create_eq. split_cases; [by left|right; by eexists].
  - rewrite p0_create_eq. split_cases; [by left| |right; by eexists].
    destruct (p0_handle_validate _ e w ltac:(eassumption)) as [[_ ->]|(? & _ & _ & ->)];
      by left.
  - rewrite p0_update_eq. split_cases; try (by left); [|right; by eexists].
    destruct (p0_handle_validate _ e w ltac:(eassumption)) as [[_ ->]|(? & _ & _ & ->)];
      by left.
  - rewrite p0_delete_eq. split_cases; try (by left). right; by eexists.
  - rewrite p1_create_eq. split_cases; [by left|right; by eexists].
  - rewrite p1_update_eq. split_cases; try (by left). right; by eexists.
  - rewrite p1_delete_eq. split_cases; try (by left). right; by eexists.
Qed.

(** X9.  When the event has no path id, [getProduct], [updateProduct] and
    [deleteProduct] reject with the store's error on the [undefined] key
    and return the world they were given: [handleError] rethrows what it
    does not map. *)
Theorem undefined_id_escapes (event : Event.t) (w : World) :
  path_id event = None ->
  HandlersTs.getProduct event w = (inl StoreError, w)
  /\ Part000.getProduct event w = (inl StoreError, w)
  /\ Part000.updateProduct event w = (inl StoreError, w)
  /\ Part000.deleteProduct event w = (inl StoreError, w)
  /\ Part001.getProduct event w = (inl StoreError, w)
  /\ Part001.updateProduct event w = (inl StoreError, w)
  /\ Part001.deleteProduct event w = (inl StoreError, w).
Proof.
  intros Eid.
  rewrite ts_get_eq, p0_get_eq, p0_update_eq, p0_delete_eq, p1_get_eq, p1_update_eq,
    p1_delete_eq, Eid.
  done.
Qed.


(** X11.  [updateProduct] and [deleteProduct] touch the key of the path id
    only: whatever the body and whatever the outcome, every other key holds
    afterwards what it held before. *)
Theorem update_delete_touch_one_key (event : Event.t) (id k : string) (w : World) :
  path_id event = Some id ->
  k <> id ->
  table (snd (Part000.updateProduct event w)) !! k = table w !! k
  /\ table (snd (Part000.deleteProduct event w)) !! k = table w !! k
  /\ table (snd (Part001.updateProduct event w)) !! k = table w !! k
  /\ table (snd (Part001.deleteProduct event w)) !! k = table w !! k.
Proof.
  intros Eid Hk. split; [|split; [|split]].
  - rewrite p0_update_eq, Eid. split_cases; try done; [|simpl; by rewrite lookup_insert_ne].
    by destruct (p0_handle_validate _ e w ltac:(eassumption)) as [[_ ->]|(? & _ & _ & ->)].
  - rewrite p0_delete_eq, Eid. split_cases; try done. simpl. by rewrite lookup_delete_ne.
  - rewrite p1_update_eq, Eid. split_cases; try done. simpl. by rewrite lookup_insert_ne.
  - rewrite p1_delete_eq, Eid. split_cases; try done. simpl. by rewrite lookup_delete_ne.
Qed.

(** X12.  [updateProduct] never creates and never removes a record: for
    every event and every world, the ids of the table afterwards are the
    ids before. *)
Theorem update_keeps_ids (event : Event.t) (w : World) :
  dom (table (snd (Part000.updateProduct event w))) = dom (table w)
  /\ dom (table (snd (Part001.updateProduct event w))) = dom (table w).
Proof.
  split.
  - rewrite p0_update_eq. split_cases; try done.
    + by destruct (p0_handle_validate _ e w ltac:(eassumption)) as [[_ ->]|(? & _ & _ & ->)].
    + simpl. by apply dom_insert_lookup_L.
  - rewrite p1_update_eq. split_cases; try done.
    simpl. by apply dom_insert_lookup_L.
Qed.

(** X13.  After [deleteProduct] on an id, whether or not it had a record,
    the id has none: a second [deleteProduct], an [updateProduct] and a
    [getProduct] on that id all answer 404 and leave the world alone. *)
Theorem after_delete_all_404 (event event' : Event.t) (id : string) (w : World) :
  path_id event = Some id ->
  path_id event' = Some id ->
  (answers Part000.deleteProduct event' (snd (Part000.deleteProduct event w)) 404 not_found_text
   /\ answers Part000.updateProduct event' (snd (Part000.deleteProduct event w)) 404 not_found_text
   /\ answers Part000.getProduct event' (snd (Part000.deleteProduct event w)) 404 not_found_text)
  /\ (answers Part001.deleteProduct event' (snd (Part001.deleteProduct event w)) 404 not_found_text
      /\ answers Part001.updateProduct event' (snd (Part001.deleteProduct event w)) 404 not_found_text
      /\ answers Part001.getProduct event' (snd (Part001.deleteProduct event w)) 404 not_found_text).
Proof.
  intros Eid Eid'.
  assert (E0 : table (snd (Part000.deleteProduct event w)) !! id = None).
  { rewrite p0_delete_eq, Eid. destruct (table w !! id) eqn:E; [|done].
    simpl. apply lookup_delete_eq. }
  assert (E1 : table (snd (Part001.deleteProduct event w)) !! id = None).
  { rewrite p1_delete_eq, Eid. destruct (table w !! id) eqn:E; [|done].
    simpl. apply lookup_delete_eq. }
  split; (split; [|split]); eexists.
  - rewrite p0_delete_eq, Eid'. unfold obj in *. rewrite E0. done.
  - rewrite p0_update_eq, Eid'. unfold obj in *. rewrite E0. done.
  - rewrite p0_get_eq, Eid'. unfold obj in *. rewrite E0. done.
  - rewrite p1_delete_eq, Eid'. unfold obj in *. rewrite E1. done.
  - rewrite p1_update_eq, Eid'. unfold obj in *. rewrite E1. done.
  - rewrite p1_get_eq, Eid'. unfold obj in *. rewrite E1. done.
Qed.

(** X14.  [updateProduct] is idempotent: for every event and every world,
    running it again on the world it returned gives the same answer (or the
    same rejection) and returns that world unchanged. *)
Theorem update_is_idempotent (event : Event.t) (w : World) :
  Part000.updateProduct event (snd (Part000.updateProduct event w))
  = (fst (Part000.updateProduct event w), snd (Part000.updateProduct event w))
  /\ Part001.updateProduct event (snd (Part001.updateProduct event w))
     = (fst (Part001.updateProduct event w), snd (Part001.updateProduct event w)).
Proof.
  split.
  - rewrite (p0_update_eq event w).
    destruct (path_id event) as [id|] eqn:Eid;
      [|simpl; by rewrite p0_update_eq, Eid].
    destruct (table w !! id) as [old|] eqn:E;
      [|simpl; rewrite p0_update_eq, Eid; unfold obj in *; by rewrite E].
    destruct (JSON_parse _) as [message|reqBody] eqn:Ep;
      [simpl; rewrite p0_update_eq, Eid; unfold obj in *; by rewrite E, Ep|].
    destruct (validate reqBody) as [e|[]] eqn:Ev.
    + destruct (p0_handle_validate _ e w Ev) as [[-> Hh]|(errors & _ & -> & Hh)];
        rewrite Hh; simpl; rewrite p0_update_eq, Eid; unfold obj in *;
        by rewrite E, Ep, Ev, Hh.
    + simpl. rewrite (p0_update_ok event id (with_id id reqBody) reqBody);
        [by rewrite stored_twice|done|apply stored_lookup|done|done].
  - rewrite (p1_update_eq event w).
    destruct (path_id event) as [id|] eqn:Eid;
      [|simpl; by rewrite p1_update_eq, Eid].
    destruct (table w !! id) as [old|] eqn:E;
      [|simpl; rewrite p1_update_eq, Eid; unfold obj in *; by rewrite E].
    destruct (JSON_parse _) as [message|reqBody] eqn:Ep;
      [simpl; rewrite p1_update_eq, Eid; unfold obj in *; by rewrite E, Ep|].
    simpl. rewrite (p1_update_ok event id (with_id id reqBody) reqBody);
      [by rewrite stored_twice|done|apply stored_lookup|done].
Qed.

(** X15.  Every handler keeps the table keyed by [productId]: if each
    record has its key as its [productId] before a run, each record has
    afterwards, for every event and every outcome, in the three
    revisions. *)
Theorem handlers_keep_keyed (event : Event.t) (w : World) :
  keyed w ->
  (keyed (snd (HandlersTs.createProduct event w))
   /\ keyed (snd (HandlersTs.getProduct event w)))
  /\ (keyed (snd (Part000.createProduct event w))
      /\ keyed (snd (Part000.getProduct event w))
      /\ keyed (snd (Part000.updateProduct event w))
      /\ keyed (snd (Part000.deleteProduct event w))
      /\ keyed (snd (Part000.listProduct event w)))
  /\ (keyed (snd (Part001.createProduct event w))
      /\ keyed (snd (Part001.getProduct event w))
      /\ keyed (snd (Part001.updateProduct event w))
      /\ keyed (snd (Part001.deleteProduct event w))
      /\ keyed (snd (Part001.listProduct event w))).
Proof.
  intros Hk.
  assert (Hhandle : forall v e, validate v = inl e -> keyed (snd (Part000.handleError e w))).
  { intros v e Ev. by destruct (p0_handle_validate v e w Ev) as [[_ ->]|(? & _ & _ & ->)]. }
  split; [split|split; [split; [|split; [|split; [|split]]]|split; [|split; [|split; [|split]]]]].
  - rewrite ts_create_eq. split_cases; [done|]. by apply stored_keyed.
  - rewrite ts_get_eq. by split_cases.
  - rewrite p0_create_eq. split_cases; [done|by eapply Hhandle|by apply stored_keyed].
  - rewrite p0_get_eq. by split_cases.
  - rewrite p0_update_eq. split_cases; try done; [by eapply Hhandle|by apply stored_keyed].
  - rewrite p0_delete_eq. split_cases; try done. by apply deleted_keyed.
  - done.
  - rewrite p1_create_eq. split_cases; [done|]. by apply stored_keyed.
  - rewrite p1_get_eq. by split_cases.
  - rewrite p1_update_eq. split_cases; try done. by apply stored_keyed.
  - rewrite p1_delete_eq. split_cases; try done. by apply deleted_keyed.
  - done.
Qed.

(** X16.  The revisions that do not validate take a body that is [null]
    (an event without body is read as the text [null]), a boolean or a
    number: it has no properties to spread, so the record stored and
    answered with 200 has the [productId] and nothing else, and
    [updateProduct] replaces an existing record by that. *)
Theorem unvalidated_scalar_body (event : Event.t) (reqBody : json) (w : World) :
  JSON_parse (default "null" (Event.body event)) = inr reqBody ->
  match reqBody with JNull | JBool _ | JNum _ => True | _ => False end ->
  HandlersTs.createProduct event w
  = (inr (bare 200 (JObj [("productId", JStr (next_id w))])),
     stored (second_id w) [("productId", JStr (second_id w))] 2 w)
  /\ Part001.createProduct event w
     = (inr (ok 200 (JObj [("productId", JStr (next_id w))])),
        stored (next_id w) [("productId", JStr (next_id w))] 1 w)
  /\ (forall id old, path_id event = Some id -> table w !! id = Some old ->
        Part001.updateProduct event w
        = (inr (ok 200 (JObj [("productId", JStr id)])),
           stored id [("productId", JStr id)] 0 w)).
Proof.
  intros Ep Hv.
  assert (Hw : forall i, with_id i reqBody = [("productId", JStr i)]).
  { intros i. by destruct reqBody. }
  split; [|split].
  - by rewrite ts_create_eq, Ep, !Hw.
  - by rewrite p1_create_eq, Ep, !Hw.
  - intros id old Eid E. rewrite (p1_update_ok event id old reqBody) by done.
    by rewrite !Hw.
Qed.

(** X17.  [createProduct] of [src/handlers.ts] on a body that parses: two
    ids are drawn; the answer carries the record with the first, the table
    gets the record with the second under the second; the two records agree
    on every property but [productId]; [getProduct] on the second id
    answers 200 with the stored record. *)
Theorem handlers_ts_create_two_ids (event event' : Event.t) (reqBody : json) (w : World) :
  JSON_parse (default "null" (Event.body event)) = inr reqBody ->
  path_id event' = Some (second_id w) ->
  exists w',
    HandlersTs.createProduct event w
    = (inr (bare 200 (JObj (with_id (next_id w) reqBody))), w')
    /\ table w' = <[second_id w := with_id (second_id w) reqBody]> (table w)
    /\ drawn w' = (2 + drawn w)%nat
    /\ (forall k, k <> "productId" ->
          obj_get k (with_id (next_id w) reqBody) = obj_get k (with_id (second_id w) reqBody))
    /\ HandlersTs.getProduct event' w'
       = (inr (bare 200 (JObj (with_id (second_id w) reqBody))), w').
Proof.
  intros Ep Eid. eexists. rewrite ts_create_eq, Ep.
  split; [done|]. split; [done|]. split; [done|]. split.
  - intros k Hk. by rewrite !with_id_other.
  - apply (ts_get_found event' (second_id w)); [done|apply stored_lookup].
Qed.


(** X19.  [updateProduct] of [unnamed/part_000] reports every rejected
    field, as [createProduct] does: when the id has a record, the parsed
    body is an object, no field's cast throws and the schema does not
    accept some field, it answers 400 with the body {"errors":[...]},
    returns the world it was given, and the list holds the message of every
    rejected field, each starting with the field's name. *)
Theorem update_reports_every_rejected_field (event : Event.t) (id : string) (old o : obj)
    (w : World) :
  path_id event = Some id ->
  table w !! id = Some old ->
  JSON_parse (default "null" (Event.body event)) = inr (JObj o) ->
  (forall path t, In (path, t) schema -> field_verdict o path t <> Throws) ->
  (exists path t, In (path, t) schema /\ field_verdict o path t <> Accepted) ->
  exists errors,
    Part000.updateProduct event w = (inr (bad_fields errors), w)
    /\ Result.statusCode (bad_fields errors) = 400
    /\ (forall path t message,
          In (path, t) schema -> field_verdict o path t = Rejected message ->
          In message errors /\ String.prefix path message = true).
Proof.
  intros Eid E Ep Hno (path0 & t0 & Hin0 & Hrej0).
  assert (Hall : forall path t message,
             In (path, t) schema -> field_verdict o path t = Rejected message ->
             In message (messages (verdicts o)) /\ String.prefix path message = true).
  { intros path t message Hin Hr. split.
    - apply messages_In. rewrite <- Hr. by apply verdicts_In.
    - by apply (rejected_names_field path t (obj_get path o)). }
  assert (Hne : messages (verdicts o) <> []).
  { destruct (field_verdict o path0 t0) as [|message|] eqn:Ev; [done| |by apply Hno in Hin0].
    destruct (Hall _ _ _ Hin0 Ev) as [Hin _]. intros Hnil. by rewrite Hnil in Hin. }
  exists (messages (verdicts o)). split; [|done].
  rewrite p0_update_eq, Eid. unfold obj in *. rewrite E, Ep.
  by rewrite (validate_rejects o (no_throw o Hno) Hne).
Qed.

(** X20.  A body whose [name] and [description] are strings that are not
    empty, whose [price] is a number and whose [available] is a boolean
    passes the schema, whatever else it holds: [createProduct] of
    [unnamed/part_000] answers 200 and stores the record, and so does
    [updateProduct] on an id that has a record. *)
Theorem typed_body_is_accepted (event : Event.t) (o : obj) (name description : string)
    (price : number) (available : bool) (w : World) :
  JSON_parse (default "null" (Event.body event)) = inr (JObj o) ->
  obj_get "name" o = Some (JStr name) -> name <> "" ->
  obj_get "description" o = Some (JStr description) -> description <> "" ->
  obj_get "price" o = Some (JNum price) ->
  obj_get "available" o = Some (JBool available) ->
  Part000.createProduct event w
  = (inr (ok 200 (JObj (with_id (next_id w) (JObj o)))),
     stored (next_id w) (with_id (next_id w) (JObj o)) 1 w)
  /\ (forall id old, path_id event = Some id -> table w !! id = Some old ->
        Part000.updateProduct event w
        = (inr (ok 200 (JObj (with_id id (JObj o)))), stored id (with_id id (JObj o)) 0 w)).
Proof.
  intros Ep En Hn Ed Hd Epr Ea.
  assert (Ev : validate (JObj o) = inr tt) by by eapply typed_body_is_valid.
  split; [by apply p0_create_ok|].
  intros id old Eid E. by apply (p0_update_ok event id old).
Qed.


(** X22.  Headers: every answer of [unnamed/part_000] carries the header
    content-type: application/json, except the 204 of [deleteProduct],
    which carries none; the answers of [src/handlers.ts] carry none. *)
Theorem answers_carry_json_header (event : Event.t) (w w' : World) (r : Result.t) :
  (Part000.createProduct event w = (inr r, w') -> Result.headers r = headers)
  /\ (Part000.getProduct event w = (inr r, w') -> Result.headers r = headers)
  /\ (Part000.updateProduct event w = (inr r, w') -> Result.headers r = headers)
  /\ (Part000.listProduct event w = (inr r, w') -> Result.headers r = headers)
  /\ (Part000.deleteProduct event w = (inr r, w') ->
        (Result.statusCode r = 204 /\ Result.headers r = None)
        \/ (Result.statusCode r = 404 /\ Result.headers r = headers))
  /\ (HandlersTs.createProduct event w = (inr r, w') -> Result.headers r = None)
  /\ (HandlersTs.getProduct event w = (inr r, w') -> Result.headers r = None).
Proof.
  split; [|split; [|split; [|split; [|split; [|split]]]]].
  - rewrite p0_create_eq. intros Hrun. split_cases; simplify_eq; auto.
    all: handled w Hrun; by simplify_eq.
  - rewrite p0_get_eq. intros Hrun. split_cases; by simplify_eq.
  - rewrite p0_update_eq. intros Hrun. split_cases; simplify_eq; auto.
    all: handled w Hrun; by simplify_eq.
  - intros Hrun. destruct (list_eq event w) as [E _]. rewrite E in Hrun. by simplify_eq.
  - rewrite p0_delete_eq. intros Hrun. split_cases; simplify_eq; auto.
  - rewrite ts_create_eq. intros Hrun. split_cases; by simplify_eq.
  - rewrite ts_get_eq. intros Hrun. split_cases; by simplify_eq.
Qed.

(** X23.  Two [createProduct] in a row draw two ids in a row: the second
    record is stored under the second id, and the first record is still
    under the first id when the two ids differ (when they are equal the
    second put replaces the first record; nothing checks). *)
Theorem create_twice (event1 event2 : Event.t) (body1 body2 : json) (w : World) :
  JSON_parse (default "null" (Event.body event1)) = inr body1 ->
  validate body1 = inr tt ->
  JSON_parse (default "null" (Event.body event2)) = inr body2 ->
  validate body2 = inr tt ->
  exists w1 w2,
    Part000.createProduct event1 w = (inr (ok 200 (JObj (with_id (next_id w) body1))), w1)
    /\ Part000.createProduct event2 w1
       = (inr (ok 200 (JObj (with_id (second_id w) body2))), w2)
    /\ table w2 !! second_id w = Some (with_id (second_id w) body2)
    /\ (next_id w <> second_id w ->
          table w2 !! next_id w = Some (with_id (next_id w) body1)).
Proof.
  intros Ep1 Ev1 Ep2 Ev2. do 2 eexists.
  rewrite (p0_create_ok event1 body1 w Ep1 Ev1). split; [done|].
  rewrite (p0_create_ok event2 body2 _ Ep2 Ev2). split; [done|].
  split; [apply stored_lookup|].
  intros Hne. simpl. rewrite lookup_insert_ne; [apply lookup_insert_eq|].
  intros E. apply Hne. symmetry. exact E.
Qed.

(** X24.  An event without body on [unnamed/part_000]: the body is read as
    the text [null], the schema rejects [null] with one message about the
    body itself, and [createProduct] answers 400 with that one message and
    returns the world it was given. *)
Theorem absent_body_is_400 (event : Event.t) (w : World) :
  Event.body event = None ->
  JSON_parse "null" = inr JNull ->
  Part000.createProduct event w
  = (inr (bad_fields [notType_message "this" "object" (Some JNull) JNull]), w)
  /\ String.prefix "this must be a `object` type"
       (notType_message "this" "object" (Some JNull) JNull) = true.
Proof.
  intros Eb Ep. split; [|done].
  rewrite p0_create_eq, Eb. simpl. by rewrite Ep.
Qed.

End Behaviour.

(** ** The further behaviour on the sample runtime *)

Section BehaviourSamples.
Import Sample.
#[local] Existing Instance numbers.
#[local] Existing Instance runtime.

Lemma one_record_keyed : keyed one_record.
Proof.
  intros k Item. unfold one_record, stored, empty_world. simpl.
  rewrite lookup_insert. case_decide as E; [|by rewrite lookup_empty].
  intros [= <-]. by subst k.
Qed.

Lemma delete_missing_is_404_witness :
  path_id (at_id "p2" None) = Some "p2"
  /\ table one_record !! "p2" = None
  /\ answers Part000.deleteProduct (at_id "p2" None) one_record 404 not_found_text
  /\ answers Part001.deleteProduct (at_id "p2" None) one_record 404 not_found_text.
Proof.
  split; [reflexivity|]. split; [reflexivity|].
  apply (delete_missing_is_404 (at_id "p2" None) "p2" one_record); reflexivity.
Defined.

Lemma get_found_is_200_witness :
  path_id (at_id "p1" None) = Some "p1"
  /\ table one_record !! "p1" = Some (with_id "p1" widget)
  /\ answers HandlersTs.getProduct (at_id "p1" None) one_record 200
       (JSON_stringify (JObj (with_id "p1" widget)))
  /\ answers Part000.getProduct (at_id "p1" None) one_record 200
       (JSON_stringify (JObj (with_id "p1" widget)))
  /\ answers Part001.getProduct (at_id "p1" None) one_record 200
       (JSON_stringify (JObj (with_id "p1" widget))).
Proof.
  split; [reflexivity|]. split; [reflexivity|].
  apply (get_found_is_200 (at_id "p1" None) "p1" (with_id "p1" widget) one_record);
    reflexivity.
Defined.

Lemma undefined_id_escapes_witness :
  path_id (post "{") = None
  /\ Part000.updateProduct (post "{") one_record = (inl StoreError, one_record)
  /\ Part000.deleteProduct (post "{") one_record = (inl StoreError, one_record).
Proof.
  split; [reflexivity|].
  destruct (undefined_id_escapes (post "{") one_record eq_refl)
    as (_ & _ & Hupdate & Hdelete & _).
  split; [exact Hupdate|exact Hdelete].
Defined.


Lemma update_delete_touch_one_key_witness :
  path_id (at_id "p2" (Some (JSON_stringify widget))) = Some "p2"
  /\ "p1" <> "p2"
  /\ table (snd (Part000.deleteProduct (at_id "p2" (Some (JSON_stringify widget))) one_record))
       !! "p1"
     = table one_record !! "p1".
Proof.
  assert (Hne : "p1" <> "p2") by discriminate.
  split; [reflexivity|]. split; [exact Hne|].
  apply (update_delete_touch_one_key (at_id "p2" (Some (JSON_stringify widget)))
           "p2" "p1" one_record eq_refl Hne).
Defined.

Lemma after_delete_all_404_witness :
  path_id (at_id "p1" None) = Some "p1"
  /\ answers Part000.getProduct (at_id "p1" None)
       (snd (Part000.deleteProduct (at_id "p1" None) one_record)) 404 not_found_text.
Proof.
  split; [reflexivity|].
  apply (after_delete_all_404 (at_id "p1" None) (at_id "p1" None) "p1" one_record);
    reflexivity.
Defined.

Lemma handlers_keep_keyed_witness :
  keyed one_record
  /\ keyed (snd (Part000.createProduct (post (JSON_stringify widget)) one_record)).
Proof.
  split; [exact one_record_keyed|].
  apply (handlers_keep_keyed (post (JSON_stringify widget)) one_record one_record_keyed).
Defined.

Lemma unvalidated_scalar_body_witness :
  JSON_parse (default "null" (Event.body (at_id "p1" None))) = inr JNull
  /\ Part001.updateProduct (at_id "p1" None) one_record
     = (inr (ok 200 (JObj [("productId", JStr "p1")])),
        stored "p1" [("productId", JStr "p1")] 0 one_record).
Proof.
  assert (Hparse : JSON_parse (default "null" (Event.body (at_id "p1" None))) = inr JNull)
    by reflexivity.
  split; [exact Hparse|].
  destruct (unvalidated_scalar_body (at_id "p1" None) JNull one_record Hparse I)
    as (_ & _ & Hupdate).
  apply (Hupdate "p1" (with_id "p1" widget)); reflexivity.
Defined.

Lemma handlers_ts_create_two_ids_witness :
  JSON_parse (default "null" (Event.body (post (JSON_stringify widget)))) = inr widget
  /\ path_id (at_id "00000000-0000-4000-8000-000000000001" None)
     = Some (second_id empty_world)
  /\ exists w',
       HandlersTs.createProduct (post (JSON_stringify widget)) empty_world
       = (inr (bare 200 (JObj (with_id (next_id empty_world) widget))), w')
       /\ HandlersTs.getProduct (at_id "00000000-0000-4000-8000-000000000001" None) w'
          = (inr (bare 200 (JObj (with_id (second_id empty_world) widget))), w').
Proof.
  assert (Hparse : JSON_parse (default "null" (Event.body (post (JSON_stringify widget))))
                   = inr widget) by reflexivity.
  assert (Hid : path_id (at_id "00000000-0000-4000-8000-000000000001" None)
                = Some (second_id empty_world)) by reflexivity.
  split; [exact Hparse|]. split; [exact Hid|].
  destruct (handlers_ts_create_two_ids (post (JSON_stringify widget))
              (at_id "00000000-0000-4000-8000-000000000001" None) widget empty_world
              Hparse Hid) as (w' & Hcreate & _ & _ & _ & Hget).
  exists w'. split; [exact Hcreate|exact Hget].
Defined.


Lemma update_reports_every_rejected_field_witness :
  path_id (at_id "p1" (Some (JSON_stringify incomplete))) = Some "p1"
  /\ table one_record !! "p1" = Some (with_id "p1" widget)
  /\ exists errors,
       Part000.updateProduct (at_id "p1" (Some (JSON_stringify incomplete))) one_record
       = (inr (bad_fields errors), one_record)
       /\ In "description is a required field" errors
       /\ In "available is a required field" errors.
Proof.
  assert (Hno : forall path t, In (path, t) schema ->
                  field_verdict (spread incomplete) path t <> Throws).
  { intros path t [E|[E|[E|[E|[]]]]]; inversion E; subst; vm_compute; discriminate. }
  assert (Hex : exists path t, In (path, t) schema
                  /\ field_verdict (spread incomplete) path t <> Accepted).
  { exists "description", TString. split; [vm_compute; tauto|vm_compute; discriminate]. }
  assert (Hparse : JSON_parse (default "null"
                      (Event.body (at_id "p1" (Some (JSON_stringify incomplete)))))
                   = inr (JObj (spread incomplete))) by reflexivity.
  split; [reflexivity|]. split; [reflexivity|].
  destruct (update_reports_every_rejected_field
              (at_id "p1" (Some (JSON_stringify incomplete))) "p1" (with_id "p1" widget)
              (spread incomplete) one_record eq_refl eq_refl Hparse Hno Hex)
    as (errors & Hrun & _ & Hall).
  exists errors. split; [exact Hrun|].
  split; [apply (Hall "description" TString); [vm_compute; tauto|reflexivity]|].
  apply (Hall "available" TBoolean); [vm_compute; tauto|reflexivity].
Defined.

Lemma typed_body_is_accepted_witness :
  JSON_parse (default "null" (Event.body (post (JSON_stringify widget_with_id))))
  = inr (JObj (spread widget_with_id))
  /\ obj_get "name" (spread widget_with_id) = Some (JStr "Widget")
  /\ obj_get "price" (spread widget_with_id) = Some (JNum 5)
  /\ Part000.createProduct (post (JSON_stringify widget_with_id)) one_record
     = (inr (ok 200 (JObj (with_id (next_id one_record) widget_with_id))),
        stored (next_id one_record) (with_id (next_id one_record) widget_with_id) 1
          one_record).
Proof.
  assert (Hparse : JSON_parse (default "null"
                      (Event.body (post (JSON_stringify widget_with_id))))
                   = inr (JObj (spread widget_with_id))) by reflexivity.
  split; [exact Hparse|]. split; [reflexivity|]. split; [reflexivity|].
  apply (typed_body_is_accepted (post (JSON_stringify widget_with_id))
           (spread widget_with_id) "Widget" "A widget" 5 true one_record Hparse);
    first [reflexivity|discriminate].
Defined.


Lemma create_twice_witness :
  validate widget = inr tt
  /\ validate coerced = inr tt
  /\ exists w1 w2,
       Part000.createProduct (post (JSON_stringify widget)) empty_world
       = (inr (ok 200 (JObj (with_id (next_id empty_world) widget))), w1)
       /\ Part000.createProduct (post (JSON_stringify coerced)) w1
          = (inr (ok 200 (JObj (with_id (second_id empty_world) coerced))), w2)
       /\ table w2 !! second_id empty_world = Some (with_id (second_id empty_world) coerced).
Proof.
  assert (Hv1 : validate widget = inr tt) by reflexivity.
  assert (Hv2 : validate coerced = inr tt) by reflexivity.
  assert (Hp1 : JSON_parse (default "null" (Event.body (post (JSON_stringify widget))))
                = inr widget) by reflexivity.
  assert (Hp2 : JSON_parse (default "null" (Event.body (post (JSON_stringify coerced))))
                = inr coerced) by reflexivity.
  split; [exact Hv1|]. split; [exact Hv2|].
  destruct (create_twice (post (JSON_stringify widget)) (post (JSON_stringify coerced))
              widget coerced empty_world Hp1 Hv1 Hp2 Hv2)
    as (w1 & w2 & Hc1 & Hc2 & Hsecond & _).
  exists w1, w2. split; [exact Hc1|]. split; [exact Hc2|exact Hsecond].
Defined.

Lemma absent_body_is_400_witness :
  Event.body (at_id "p1" None) = None
  /\ JSON_parse "null" = inr JNull
  /\ Part000.createProduct (at_id "p1" None) one_record
     = (inr (bad_fields [notType_message "this" "object" (Some JNull) JNull]), one_record).
Proof.
  assert (Hparse : JSON_parse "null" = inr JNull) by reflexivity.
  split; [reflexivity|]. split; [exact Hparse|].
  apply (absent_body_is_400 (at_id "p1" None) one_record eq_refl Hparse).
Defined.

End BehaviourSamples.
